(** * Keystone UUID token provider: token-data assembly and validation

    A shallow embedding of [keystone/token/providers/uuid.py]: the
    [V3TokenDataHelper] (the token-data assembler) and the [Provider]
    (issuance, revocation, verification and validation against the token
    store), followed by the properties of the token-provider specification.

    Python dictionaries are finite maps from strings to Python values,
    exceptions are an error result, and the backends the two classes are
    wired to ([identity_api], [catalog_api], [trust_api], [token_api]) are
    records of operations. *)

From stdpp Require Import gmap strings list fin_maps.

Set Warnings "-register-all".
Set Default Proof Using "Type".

(** ** Python values *)

(** The values that flow through the provider: [None], booleans, strings,
    [datetime] objects (as a point on the time line), lists and
    string-keyed dictionaries. *)
Inductive pyval : Type :=
| VNone
| VBool (b : bool)
| VStr (s : string)
| VTime (t : Z)
| VList (l : list pyval)
| VDict (d : gmap string pyval).

Abbreviation dict := (gmap string pyval).

(** Python truthiness, as tested by [if x:] and [not x]. *)
Definition truthy (v : pyval) : bool :=
  match v with
  | VNone => false
  | VBool b => b
  | VStr s => negb (String.eqb s "")
  | VTime _ => true
  | VList l => negb (bool_decide (l = []))
  | VDict d => negb (bool_decide (d = ∅))
  end.

(** [isinstance(v, basestring)] *)
Definition is_basestring (v : pyval) : bool :=
  match v with VStr _ => true | _ => false end.

(** [v == s] for a string [s]: only a string value can be equal to it. *)
Definition py_eq_str (v : pyval) (s : string) : bool :=
  match v with VStr s' => String.eqb s' s | _ => false end.

(** [d.get(k)]: the value, or [None] when the key is missing. *)
Definition dict_get (d : dict) (k : string) : pyval :=
  match d !! k with Some v => v | None => VNone end.

(** [k in d] for a dictionary. *)
Definition dict_has (d : dict) (k : string) : bool :=
  bool_decide (is_Some (d !! k)).

(** ** Exceptions *)

(** The text an exception carries: a literal, or a format string together
    with the mapping it is applied to with [%]. *)
Inductive msg : Type :=
| Text (s : string)
| Format (fmt : string) (kw : list (string * pyval)).

(** Modelled from the spec: the classes of [keystone.exception] and of
    [keystone.token.provider] that the provider raises or catches (the
    modules themselves are not part of the sources at hand), the Python
    built-in errors that subscripting and attribute access raise, and
    [BackendError] for any other failure of a backend.  Every not-found
    class is a class of its own, so [except exception.TokenNotFound]
    selects exactly [TokenNotFound]. *)
Inductive exn : Type :=
| Forbidden (message : msg)
| Unauthorized (message : msg)
| TokenNotFound (message : msg)
| UserNotFound (message : msg)
| ProjectNotFound (message : msg)
| DomainNotFound (message : msg)
| RoleNotFound (message : msg)
| TrustNotFound (message : msg)
| NotImplemented
| UnsupportedTokenVersionException
| AssertionError
| KeyError (key : string)
| TypeError
| AttributeError
| ValueError
| BackendError (message : msg).

(** The message of an exception, as used by [exception.Unauthorized(e)]. *)
Definition exn_message (e : exn) : msg :=
  match e with
  | Forbidden m | Unauthorized m | TokenNotFound m | UserNotFound m
  | ProjectNotFound m | DomainNotFound m | RoleNotFound m | TrustNotFound m
  | BackendError m => m
  | NotImplemented => Text "NotImplemented"
  | UnsupportedTokenVersionException => Text "UnsupportedTokenVersionException"
  | AssertionError => Text "AssertionError"
  | KeyError k => Text k
  | TypeError => Text "TypeError"
  | AttributeError => Text "AttributeError"
  | ValueError => Text "ValueError"
  end.

(** [except exception.TokenNotFound] *)
Definition is_TokenNotFound (e : exn) : bool :=
  match e with TokenNotFound _ => true | _ => false end.

(** [except exception.NotImplemented] *)
Definition is_NotImplemented (e : exn) : bool :=
  match e with NotImplemented => true | _ => false end.

(** The not-found classes of the other backends. *)
Definition is_other_not_found (e : exn) : bool :=
  match e with
  | UserNotFound _ | ProjectNotFound _ | DomainNotFound _
  | RoleNotFound _ | TrustNotFound _ => true
  | _ => false
  end.

(** ** Computations that may raise *)

Inductive Exc (A : Type) : Type :=
| Ok (a : A)
| Raise (e : exn).
Arguments Ok {A} a.
Arguments Raise {A} e.

Global Instance exc_ret : MRet Exc := λ A a, Ok a.

Global Instance exc_bind : MBind Exc := λ A B k c,
  match c with Ok a => k a | Raise e => Raise e end.

(** A list comprehension whose body may raise, evaluated left to right. *)
Fixpoint exc_map {A B} (f : A → Exc B) (l : list A) : Exc (list B) :=
  match l with
  | [] => Ok []
  | x :: l' => y ← f x; ys ← exc_map f l'; Ok (y :: ys)
  end.

(** [v[k]] for a string key [k]: a dictionary looks the key up, every
    other value refuses a string subscript. *)
Definition py_getitem (v : pyval) (k : string) : Exc pyval :=
  match v with
  | VDict d => match d !! k with Some x => Ok x | None => Raise (KeyError k) end
  | _ => Raise TypeError
  end.

(** [d[k]] for a dictionary [d]. *)
Definition dict_getitem (d : dict) (k : string) : Exc pyval :=
  py_getitem (VDict d) k.

(** [k in v] for a string [k]: key membership in a dictionary, element
    membership in a list, substring test in a string; the other values are
    not iterable. *)
Definition py_contains (k : string) (v : pyval) : Exc bool :=
  match v with
  | VDict d => Ok (dict_has d k)
  | VList l => Ok (existsb (fun x => py_eq_str x k) l)
  | VStr s => Ok (bool_decide (is_Some (String.index 0 k s)))
  | _ => Raise TypeError
  end.

(** ** The backends *)

(** Modelled from the spec: the records the identity directory and the
    trust store hand out (section 6 of the specification); the backends
    themselves are outside the sources at hand. *)
Record domain_ref := {
  domain_ref_id : string;
  domain_ref_name : string }.

Record project_ref := {
  project_ref_id : string;
  project_ref_name : string;
  project_ref_domain_id : string }.

Record user_ref := {
  user_ref_id : string;
  user_ref_name : string;
  user_ref_domain_id : string;
  user_ref_enabled : bool }.

(** A role as [get_role] returns it: its id, its name and whatever other
    attributes the directory keeps with it. *)
Record role_ref := {
  role_id : string;
  role_name : string;
  role_extra : dict }.

Definition role_dict (r : role_ref) : dict :=
  <["id" := VStr (role_id r)]> (<["name" := VStr (role_name r)]> (role_extra r)).

(** An entry of [trust['roles']]; only its id is read. *)
Record trust_role := { trust_role_id : string }.

Record trust_ref := {
  trust_id : string;
  trustor_user_id : string;
  trustee_user_id : string;
  impersonation : bool;
  trust_project_id : pyval;
  trust_roles : list trust_role }.

Class IdentityApi := {
  get_domain : pyval → Exc domain_ref;
  get_project : pyval → Exc project_ref;
  get_user : pyval → Exc user_ref;
  get_roles_for_user_and_domain : pyval → pyval → Exc (list string);
  get_roles_for_user_and_project : pyval → pyval → Exc (list string);
  get_role : string → Exc role_ref }.

Class CatalogApi := {
  get_v3_catalog : pyval → pyval → Exc pyval }.

Class TrustApi := {
  get_trust : pyval → Exc (option trust_ref) }.

(** [CONF.trust.enabled] *)
Class Conf := { CONF_trust_enabled : bool }.

(** The clock and the time formatting of [keystone.openstack.common.timeutils]
    and [keystone.token.default_expire_time], read once per call. *)
Class TimeUtils := {
  default_expire_time : Z;
  isotime : Z → string;
  isotime_now : string;
  parse_isotime : string → Exc Z;
  normalize_time : Z → Z }.

(** ** V3TokenDataHelper *)

Section V3TokenDataHelper.
Context `{CONF : Conf} `{identity_api : IdentityApi}
        `{catalog_api : CatalogApi} `{timeutils : TimeUtils}.

(** [CONF.trust.enabled and trust] *)
Definition active_trust (trust : option trust_ref) : option trust_ref :=
  if CONF_trust_enabled then trust else None.

Definition _get_filtered_domain (domain_id : pyval) : Exc dict :=
  domain_ref ← get_domain domain_id;
  mret ({[ "id" := VStr (domain_ref_id domain_ref);
           "name" := VStr (domain_ref_name domain_ref) ]} : dict).

Definition _get_filtered_project (project_id : pyval) : Exc dict :=
  project_ref ← get_project project_id;
  let filtered_project : dict :=
    {[ "id" := VStr (project_ref_id project_ref);
       "name" := VStr (project_ref_name project_ref) ]} in
  domain ← _get_filtered_domain (VStr (project_ref_domain_id project_ref));
  mret (<["domain" := VDict domain]> filtered_project).

Definition _populate_scope (token_data : dict) (domain_id project_id : pyval)
  : Exc dict :=
  if dict_has token_data "domain" || dict_has token_data "project" then
    (* scope already exist, no need to populate it again *)
    mret token_data
  else
    token_data ← (if truthy domain_id then
                    domain ← _get_filtered_domain domain_id;
                    mret (<["domain" := VDict domain]> token_data)
                  else mret token_data);
    if truthy project_id then
      project ← _get_filtered_project project_id;
      mret (<["project" := VDict project]> token_data)
    else mret token_data.

Definition _get_roles_for_user (user_id domain_id project_id : pyval)
  : Exc (list role_ref) :=
  let roles : list string := [] in
  roles ← (if truthy domain_id then
             get_roles_for_user_and_domain user_id domain_id
           else mret roles);
  roles ← (if truthy project_id then
             get_roles_for_user_and_project user_id project_id
           else mret roles);
  exc_map get_role roles.

Definition _populate_user (token_data : dict)
    (user_id domain_id project_id : pyval) (trust : option trust_ref)
  : Exc dict :=
  if dict_has token_data "user" then
    (* no need to repopulate user if it already exists *)
    mret token_data
  else
    user_ref ← get_user user_id;
    '(user_ref, token_data) ←
      match active_trust trust with
      | Some trust =>
          if negb (dict_has token_data "OS-TRUST:trust") then
            trustor_user_ref ← get_user (VStr (trustor_user_id trust));
            if negb (user_ref_enabled trustor_user_ref) then
              Raise (Forbidden (Text "Trustor is disabled."))
            else
              let user_ref :=
                if impersonation trust then trustor_user_ref else user_ref in
              mret (user_ref,
                    <["OS-TRUST:trust" := VDict
                        {[ "id" := VStr (trust_id trust);
                           "trustor_user" :=
                             VDict {[ "id" := VStr (trustor_user_id trust) ]};
                           "trustee_user" :=
                             VDict {[ "id" := VStr (trustee_user_id trust) ]};
                           "impersonation" := VBool (impersonation trust) ]}
                     ]> token_data)
          else mret (user_ref, token_data)
      | None => mret (user_ref, token_data)
      end;
    domain ← _get_filtered_domain (VStr (user_ref_domain_id user_ref));
    let filtered_user : dict :=
      {[ "id" := VStr (user_ref_id user_ref);
         "name" := VStr (user_ref_name user_ref);
         "domain" := VDict domain ]} in
    mret (<["user" := VDict filtered_user]> token_data).

(** The loop over [trust['roles']]: every delegated role must be matched,
    by id, by one of [roles]; the first match is kept. *)
Definition trust_filtered_roles (trust : trust_ref) (roles : list role_ref)
  : Exc (list pyval) :=
  exc_map
    (λ trust_role,
       let match_roles :=
         filter (λ x, role_id x = trust_role_id trust_role) roles in
       match match_roles with
       | x :: _ => Ok (VDict (role_dict x))
       | [] => Raise (Forbidden (Text "Trustee have no delegated roles."))
       end)
    (trust_roles trust).

(** The loop over [roles] without a trust: every role, cut down to its id
    and name. *)
Definition plain_filtered_roles (roles : list role_ref) : list pyval :=
  (λ role, VDict {[ "id" := VStr (role_id role);
                    "name" := VStr (role_name role) ]}) <$> roles.

Definition filtered_roles_of (trust : option trust_ref)
    (roles : list role_ref) : Exc (list pyval) :=
  match active_trust trust with
  | Some trust => trust_filtered_roles trust roles
  | None => mret (plain_filtered_roles roles)
  end.

(** The principal and the scope the roles are looked up for: under a
    trust the trustor on the project of the trust, otherwise the caller on
    the requested scope.  The result is
    [(token_user_id, token_project_id, token_domain_id)]. *)
Definition token_scope (user_id domain_id project_id : pyval)
    (trust : option trust_ref) : pyval * pyval * pyval :=
  match active_trust trust with
  | Some trust =>
      (* trusts do not support domains yet *)
      (VStr (trustor_user_id trust), trust_project_id trust, VNone)
  | None => (user_id, project_id, domain_id)
  end.

(** The text of the denial when no role is left. *)
Definition no_access_msg (user_id token_project_id token_domain_id : pyval)
  : msg :=
  if truthy token_project_id then
    Format "User %(user_id)s have no access to project %(project_id)s"
           [("user_id", user_id); ("project_id", token_project_id)]
  else
    Format "User %(user_id)s have no access to domain %(domain_id)s"
           [("user_id", user_id); ("domain_id", token_domain_id)].

Definition _populate_roles (token_data : dict)
    (user_id domain_id project_id : pyval) (trust : option trust_ref)
  : Exc dict :=
  if dict_has token_data "roles" then
    (* no need to repopulate roles *)
    mret token_data
  else
    let '(token_user_id, token_project_id, token_domain_id) :=
      token_scope user_id domain_id project_id trust in
    if truthy token_domain_id || truthy token_project_id then
      roles ← _get_roles_for_user token_user_id token_domain_id
                                  token_project_id;
      filtered_roles ← filtered_roles_of trust roles;
      (* user has no project or domain roles, therefore access denied *)
      if negb (truthy (VList filtered_roles)) then
        Raise (Unauthorized
                 (no_access_msg user_id token_project_id token_domain_id))
      else
        mret (<["roles" := VList filtered_roles]> token_data)
    else mret token_data.

Definition _populate_service_catalog (token_data : dict)
    (user_id domain_id project_id : pyval) (trust : option trust_ref)
  : Exc dict :=
  if dict_has token_data "catalog" then
    (* no need to repopulate service catalog *)
    mret token_data
  else
    let user_id :=
      match active_trust trust with
      | Some trust => VStr (trustor_user_id trust)
      | None => user_id
      end in
    if truthy project_id || truthy domain_id then
      service_catalog ←
        match get_v3_catalog user_id project_id with
        | Raise e => if is_NotImplemented e then Ok (VDict ∅) else Raise e
        | Ok service_catalog => Ok service_catalog
        end;
      mret (<["catalog" := service_catalog]> token_data)
    else mret token_data.

(** [timeutils.isotime(expires, subsecond=True)]: formats a [datetime];
    any other value has no [strftime]. *)
Definition isotime_of (expires : pyval) : Exc string :=
  match expires with
  | VTime t => Ok (isotime t)
  | _ => Raise AttributeError
  end.

Definition _populate_token_dates (token_data : dict) (expires : pyval)
    (trust : option trust_ref) : Exc dict :=
  let expires :=
    if negb (truthy expires) then VTime default_expire_time else expires in
  expires ← (if negb (is_basestring expires) then
               expires ← isotime_of expires; mret (VStr expires)
             else mret expires);
  let token_data := <["expires_at" := expires]> token_data in
  mret (<["issued_at" := VStr isotime_now]> token_data).

(** The fields of an earlier token that are carried over:
    [for x in ('roles', 'user', 'catalog', 'project', 'domain')]. *)
Definition carried_fields : list string :=
  ["roles"; "user"; "catalog"; "project"; "domain"].

Definition carry_over (token : dict) (token_data : dict) : dict :=
  foldl (λ token_data x,
           match token !! x with
           | Some v => <[x := v]> token_data
           | None => token_data
           end)
        token_data carried_fields.

(** The five population steps of [get_token_data], in their order. *)
Definition populate (token_data : dict)
    (user_id domain_id project_id expires : pyval) (trust : option trust_ref)
  : Exc dict :=
  token_data ← _populate_scope token_data domain_id project_id;
  token_data ← _populate_user token_data user_id domain_id project_id trust;
  token_data ← _populate_roles token_data user_id domain_id project_id trust;
  token_data ← _populate_service_catalog token_data user_id domain_id
                                         project_id trust;
  _populate_token_dates token_data expires trust.

(** The token data [get_token_data] starts from: the methods and the
    extras, and the fields carried over from an earlier token. *)
Definition initial_token_data (method_names extras : pyval)
    (token : option dict) : dict :=
  let token_data : dict :=
    {[ "methods" := method_names; "extras" := extras ]} in
  (* We've probably already written these to the token *)
  match token with
  | Some token =>
      if truthy (VDict token) then carry_over token token_data
      else token_data
  | None => token_data
  end.

Definition get_token_data (user_id method_names extras : pyval)
    (domain_id project_id expires : pyval) (trust : option trust_ref)
    (token : option dict) : Exc dict :=
  let token_data := initial_token_data method_names extras token in
  _ ← match active_trust trust with
      | Some trust =>
          if negb (py_eq_str user_id (trustee_user_id trust)) then
            Raise (Forbidden (Text "User is not a trustee."))
          else mret ()
      | None => mret ()
      end;
  token_data ← populate token_data user_id domain_id project_id expires
                        trust;
  mret ({[ "token" := VDict token_data ]} : dict).
End V3TokenDataHelper.

(** ** The token store and the provider *)

(** A computation over the token store, whose state is threaded through
    every call; a raised exception leaves the state the store is in. *)
Definition StoreM (S A : Type) : Type := S → Exc A * S.

Global Instance store_ret S : MRet (StoreM S) := λ A a s, (Ok a, s).

Global Instance store_bind S : MBind (StoreM S) := λ A B k c s,
  match c s with
  | (Ok a, s') => k a s'
  | (Raise e, s') => (Raise e, s')
  end.

(** A computation that does not touch the store. *)
Definition lift {S A} (c : Exc A) : StoreM S A := λ s, (c, s).

(** [try: body  except <class>: handler], for the exceptions [catches]
    selects; the others pass through. *)
Definition try_except {S A} (body : StoreM S A) (catches : exn → bool)
    (handler : exn → StoreM S A) : StoreM S A := λ s,
  match body s with
  | (Raise e, s') => if catches e then handler e s' else (Raise e, s')
  | r => r
  end.

(** [except Exception]: every exception of the model is an [Exception]. *)
Definition is_Exception (e : exn) : bool := true.

(** The token store behind [token_api], over its state [S]. *)
Class TokenApi (S : Type) := {
  create_token : string → dict → StoreM S unit;
  get_token : string → StoreM S dict;
  delete_token : string → StoreM S unit }.

(** [token_provider.V2] and [token_provider.V3], whose module is outside the
    sources at hand. *)
Class TokenProvider := { V2 : string; V3 : string }.

(** The keyword arguments of [issue_token].  [kw_metadata_ref] is [None]
    when the keyword is not passed at all, which [kwargs.get] with a
    default tells apart from an explicit [None]. *)
Record issue_kwargs := {
  kw_user_id : pyval;
  kw_method_names : pyval;
  kw_expires_at : pyval;
  kw_project_id : pyval;
  kw_domain_id : pyval;
  kw_auth_context : option dict;
  kw_trust : option trust_ref;
  kw_metadata_ref : option pyval }.

(** [kwargs.get(k)] and [kwargs.get(k, default)] for [metadata_ref]. *)
Definition kwargs_get (v : option pyval) (default : pyval) : pyval :=
  match v with Some v => v | None => default end.

(** [metadata_ref.setdefault(k, v)]: only a dictionary has the method. *)
Definition py_setdefault (metadata_ref : pyval) (k : string) (v : pyval)
  : Exc pyval :=
  match metadata_ref with
  | VDict d =>
      match d !! k with
      | Some _ => Ok (VDict d)
      | None => Ok (VDict (<[k := v]> d))
      end
  | _ => Raise AttributeError
  end.

(** [[r['id'] for r in roles]]: a list is walked element by element; the
    elements of a string or of a dictionary are strings, which refuse the
    subscript; the other values cannot be iterated. *)
Definition role_ids_of (roles : pyval) : Exc (list pyval) :=
  match roles with
  | VList l => exc_map (λ r, py_getitem r "id") l
  | VStr s => if truthy (VStr s) then Raise TypeError else Ok []
  | VDict d => if truthy (VDict d) then Raise TypeError else Ok []
  | _ => Raise TypeError
  end.

Section Provider.
Context `{CONF : Conf} `{identity_api : IdentityApi}
        `{catalog_api : CatalogApi} `{timeutils : TimeUtils}
        `{trust_api : TrustApi} `{token_provider : TokenProvider}
        {S : Type} `{token_api : TokenApi S}.

(** The trust an issuance runs under: the one passed in, or, for V2, the
    one whose id is stashed in [metadata_ref]. *)
Definition issue_trust (kwargs : issue_kwargs) : Exc (option trust_ref) :=
  let trust := kw_trust kwargs in
  let metadata_ref := kwargs_get (kw_metadata_ref kwargs) VNone in
  if CONF_trust_enabled && negb (bool_decide (is_Some trust))
     && truthy metadata_ref then
    stashed ← py_contains "trust_id" metadata_ref;
    if stashed : bool then
      trust_id ← py_getitem metadata_ref "trust_id";
      get_trust trust_id
    else mret trust
  else mret trust.

(** The record [_issue_v3_token] derives from the payload inside its
    [try] block, before it hands it to the store. *)
Definition token_record (kwargs : issue_kwargs) (trust : option trust_ref)
    (token_id : string) (token_data : dict) : Exc dict :=
  token ← dict_getitem token_data "token";
  expiry ← py_getitem token "expires_at";
  expiry ← match expiry with
           | VStr expiry =>
               t ← parse_isotime expiry; mret (VTime (normalize_time t))
           | _ => mret expiry
           end;
  (* FIXME(gyee): is there really a need to store roles in metadata? *)
  let metadata_ref := kwargs_get (kw_metadata_ref kwargs) (VDict ∅) in
  has_project ← py_contains "project" token;
  metadata_ref ←
    (if has_project : bool then
       (* project-scoped token, fill in the v2 token data
          all we care are the role IDs *)
       roles ← py_getitem token "roles";
       role_ids ← role_ids_of roles;
       mret (VDict {[ "roles" := VList role_ids ]})
     else mret metadata_ref);
  metadata_ref ←
    match trust with
    | Some trust =>
        metadata_ref ←
          py_setdefault metadata_ref "trust_id" (VStr (trust_id trust));
        py_setdefault metadata_ref "trustee_user_id"
                      (VStr (trustee_user_id trust))
    | None => mret metadata_ref
    end;
  user ← py_getitem token "user";
  tenant ← match token with
           | VDict token => mret (dict_get token "project")
           | _ => Raise AttributeError
           end;
  mret ({[ "key" := VStr token_id;
           "id" := VStr token_id;
           "expires" := expiry;
           "user" := user;
           "tenant" := tenant;
           "metadata" := metadata_ref;
           "token_data" := VDict token_data;
           "trust_id" := match trust with
                         | Some trust => VStr (trust_id trust)
                         | None => VNone
                         end ]} : dict).

(** The body of the [try] block: the record is built and written. *)
Definition store_token_data (kwargs : issue_kwargs)
    (trust : option trust_ref) (token_id : string) (token_data : dict)
  : StoreM S unit :=
  data ← lift (token_record kwargs trust token_id token_data);
  create_token token_id data.

(** The version of a token payload: V2 payloads are dictionaries with an
    [access] key, V3 payloads dictionaries with a [token] that has
    [methods]; anything else is of no supported version. *)
Definition get_token_version (token_data : pyval) : Exc string :=
  match token_data with
  | VDict d =>
      if truthy (VDict d) then
        if dict_has d "access" then mret V2
        else
          is_v3 ← (if dict_has d "token" then
                     token ← dict_getitem d "token";
                     py_contains "methods" token
                   else mret false);
          if is_v3 : bool then mret V3
          else Raise UnsupportedTokenVersionException
      else Raise UnsupportedTokenVersionException
  | _ => Raise UnsupportedTokenVersionException
  end.

(** [auth_context.get('extras') if auth_context else None] *)
Definition auth_extras (auth_context : option dict) : pyval :=
  match auth_context with
  | Some auth_context =>
      if truthy (VDict auth_context) then dict_get auth_context "extras"
      else VNone
  | None => VNone
  end.

(** [token_id] is the id [_get_token_id] draws with [uuid.uuid4().hex]. *)
Definition _issue_v3_token (kwargs : issue_kwargs) (token_id : string)
  : StoreM S (string * dict) :=
  (* for V2, trust is stashed in metadata_ref *)
  trust ← lift (issue_trust kwargs);
  token_data ← lift (
    get_token_data (kw_user_id kwargs) (kw_method_names kwargs)
      (auth_extras (kw_auth_context kwargs))
      (kw_domain_id kwargs) (kw_project_id kwargs) (kw_expires_at kwargs)
      trust None);
  _ ← try_except (store_token_data kwargs trust token_id token_data)
        is_Exception
        (λ exc_info,
           (* an identical token may have been created already.
              if so, return the token_data as it is also identical *)
           try_except (_ ← get_token token_id; mret ())
             is_TokenNotFound
             (λ _, lift (Raise exc_info)));
  mret (token_id, token_data).

Definition issue_token (version : string) (kwargs : issue_kwargs)
    (token_id : string) : StoreM S (string * dict) :=
  if bool_decide (version = V3) then _issue_v3_token kwargs token_id
  else lift (Raise UnsupportedTokenVersionException).

(** Verify the given token and return the token_ref. *)
Definition _verify_token (token_id : string) (belongs_to : option string)
  : StoreM S dict :=
  token_ref ← get_token token_id;
  if negb (truthy (VDict token_ref)) then lift (Raise AssertionError)
  else
    match belongs_to with
    | Some belongs_to =>
        if truthy (VStr belongs_to) then
          lift (tenant ← dict_getitem token_ref "tenant";
                tenant_id ← py_getitem tenant "id";
                if negb (py_eq_str tenant_id belongs_to) then
                  Raise AssertionError
                else mret token_ref)
        else mret token_ref
    | None => mret token_ref
    end.

Definition revoke_token (token_id : string) : StoreM S unit :=
  delete_token token_id.

(** [not token_data or 'token' not in token_data] *)
Definition lacks_token (token_data : pyval) : Exc bool :=
  if negb (truthy token_data) then mret true
  else has_token ← py_contains "token" token_data; mret (negb has_token).

(** The project id of a stored record: the id of its tenant, or [None]
    when it has no tenant. *)
Definition tenant_project_id (token_ref : dict) : Exc pyval :=
  let project_id := VNone in
  let project_ref := dict_get token_ref "tenant" in
  if truthy project_ref then py_getitem project_ref "id"
  else mret project_id.

(** The reconstruction of a payload from a record the V2 API created. *)
Definition rebuild_token_data (token_ref : dict) : Exc dict :=
  project_id ← tenant_project_id token_ref;
  user ← dict_getitem token_ref "user";
  user_id ← py_getitem user "id";
  expires ← dict_getitem token_ref "expires";
  get_token_data user_id (VList [VStr "password"; VStr "token"]) (VDict ∅)
    VNone project_id expires None None.

Definition _validate_v3_token (token_id : string) : StoreM S pyval :=
  token_ref ← _verify_token token_id None;
  (* Lets go with the cached token strategy. *)
  let token_data := dict_get token_ref "token_data" in
  lift (legacy ← lacks_token token_data;
        if legacy : bool then
          (* token ref is created by V2 API *)
          token_data ← rebuild_token_data token_ref;
          mret (VDict token_data)
        else mret token_data).

Definition validate_token (token_id : string) (belongs_to : option string)
    (version : string) : StoreM S pyval :=
  try_except
    (if bool_decide (version = V3) then _validate_v3_token token_id
     else lift (Raise UnsupportedTokenVersionException))
    is_TokenNotFound
    (λ e, lift (Raise (Unauthorized (exn_message e)))).

Definition check_token (token_id : string) (belongs_to : option string)
    (version : string) : StoreM S unit :=
  try_except
    (if bool_decide (version = V3) then
       _ ← _verify_token token_id None; mret ()
     else lift (Raise UnsupportedTokenVersionException))
    is_TokenNotFound
    (λ e, lift (Raise (Unauthorized (exn_message e)))).
End Provider.

(** ** A small deployment

    One domain, one project, three users and two roles, with a catalog, a
    clock and two token stores; the properties below are exercised on it. *)
Module Sample.
Definition conf : Conf := {| CONF_trust_enabled := true |}.

Definition admin : role_ref :=
  {| role_id := "admin"; role_name := "Admin";
     role_extra := {[ "description" := VStr "cloud admin" ]} |}.

Definition member : role_ref :=
  {| role_id := "member"; role_name := "Member"; role_extra := ∅ |}.

(** alice holds admin and member on project p1 and admin on the default
    domain; bob holds nothing; carol holds admin on p1 and is disabled. *)
Definition identity : IdentityApi := {|
  get_domain d :=
    if py_eq_str d "default" then
      Ok {| domain_ref_id := "default"; domain_ref_name := "Default" |}
    else Raise (DomainNotFound (Text "domain"));
  get_project p :=
    if py_eq_str p "p1" then
      Ok {| project_ref_id := "p1"; project_ref_name := "Project One";
            project_ref_domain_id := "default" |}
    else Raise (ProjectNotFound (Text "project"));
  get_user u :=
    if py_eq_str u "alice" then
      Ok {| user_ref_id := "alice"; user_ref_name := "Alice";
            user_ref_domain_id := "default"; user_ref_enabled := true |}
    else if py_eq_str u "bob" then
      Ok {| user_ref_id := "bob"; user_ref_name := "Bob";
            user_ref_domain_id := "default"; user_ref_enabled := true |}
    else if py_eq_str u "carol" then
      Ok {| user_ref_id := "carol"; user_ref_name := "Carol";
            user_ref_domain_id := "default"; user_ref_enabled := false |}
    else Raise (UserNotFound (Text "user"));
  get_roles_for_user_and_domain u d :=
    if py_eq_str u "alice" && py_eq_str d "default" then Ok ["admin"]
    else Ok [];
  get_roles_for_user_and_project u p :=
    if py_eq_str u "alice" && py_eq_str p "p1" then Ok ["admin"; "member"]
    else if py_eq_str u "carol" && py_eq_str p "p1" then Ok ["admin"]
    else Ok [];
  get_role r :=
    if String.eqb r "admin" then Ok admin
    else if String.eqb r "member" then Ok member
    else Raise (RoleNotFound (Text "role")) |}.

Definition catalog : CatalogApi := {|
  get_v3_catalog u p :=
    Ok (VDict {[ "RegionOne" :=
                   VDict {[ "identity" :=
                              VDict {[ "publicURL" :=
                                         VStr "http://localhost:5000/v3" ]} ]} ]}) |}.

(** A catalog backend that lists nothing. *)
Definition empty_catalog : CatalogApi := {|
  get_v3_catalog u p := Ok (VDict ∅) |}.

(** A directory that is out of service. *)
Definition identity_down : IdentityApi := {|
  get_domain d := Raise (BackendError (Text "unavailable"));
  get_project p := Raise (BackendError (Text "unavailable"));
  get_user u := Raise (BackendError (Text "unavailable"));
  get_roles_for_user_and_domain u d :=
    Raise (BackendError (Text "unavailable"));
  get_roles_for_user_and_project u p :=
    Raise (BackendError (Text "unavailable"));
  get_role r := Raise (BackendError (Text "unavailable")) |}.

(** The fields of an earlier token of alice on project p1. *)
Definition earlier_token : dict :=
  {[ "project" := VDict {[ "id" := VStr "p1" ]};
     "user" := VDict {[ "id" := VStr "alice" ]};
     "roles" := VList [VDict {[ "id" := VStr "admin" ]}];
     "catalog" := VDict ∅ ]}.

(** A catalog backend without V3 support. *)
Definition no_catalog : CatalogApi := {|
  get_v3_catalog u p := Raise NotImplemented |}.

Definition timeutils : TimeUtils := {|
  default_expire_time := 3600;
  isotime t := "2013-06-01T01:00:00.000000Z";
  isotime_now := "2013-06-01T00:00:00.000000Z";
  parse_isotime s :=
    if String.eqb s "2013-06-01T01:00:00.000000Z" then Ok 3600%Z
    else Raise ValueError;
  normalize_time t := t |}.

(** Trusts from alice to bob on project p1. *)
Definition trust_with (roles : list string) : trust_ref :=
  {| trust_id := "t1"; trustor_user_id := "alice"; trustee_user_id := "bob";
     impersonation := false; trust_project_id := VStr "p1";
     trust_roles := (λ r, {| trust_role_id := r |}) <$> roles |}.

(** A trust from alice to bob on project p1 for the admin role, under
    which bob acts as alice. *)
Definition trust_impersonating : trust_ref :=
  {| trust_id := "t3"; trustor_user_id := "alice"; trustee_user_id := "bob";
     impersonation := true; trust_project_id := VStr "p1";
     trust_roles := [ {| trust_role_id := "admin" |} ] |}.

(** A trust from alice to bob that names no project and no role. *)
Definition trust_unscoped : trust_ref :=
  {| trust_id := "t4"; trustor_user_id := "alice"; trustee_user_id := "bob";
     impersonation := false; trust_project_id := VNone; trust_roles := [] |}.

(** A configuration with trusts disabled. *)
Definition conf_without_trusts : Conf := {| CONF_trust_enabled := false |}.

(** A trust from carol, who is disabled, to bob. *)
Definition trust_from_carol : trust_ref :=
  {| trust_id := "t2"; trustor_user_id := "carol"; trustee_user_id := "bob";
     impersonation := false; trust_project_id := VStr "p1";
     trust_roles := [ {| trust_role_id := "admin" |} ] |}.

Definition trusts : TrustApi := {|
  get_trust t :=
    if py_eq_str t "t1" then Ok (Some (trust_with ["admin"]))
    else Raise (TrustNotFound (Text "trust")) |}.

Definition provider : TokenProvider := {| V2 := "v2.0"; V3 := "v3.0" |}.

(** Modelled from the spec: a token store as section 6 describes it, with
    create, get and delete by key and a not-found signal; it keeps its
    records in a dictionary and refuses a second record under a key. *)
Definition store : TokenApi (gmap string dict) := {|
  create_token k data := λ s,
    match s !! k with
    | Some _ => (Raise (BackendError (Text "duplicate key")), s)
    | None => (Ok (), <[k := data]> s)
    end;
  get_token k := λ s,
    match s !! k with
    | Some data => (Ok data, s)
    | None => (Raise (TokenNotFound (Text k)), s)
    end;
  delete_token k := λ s,
    match s !! k with
    | Some _ => (Ok (), delete k s)
    | None => (Raise (TokenNotFound (Text k)), s)
    end |}.

(** A token store that is out of service: nothing can be written and
    nothing is found. *)
Definition store_down : TokenApi () := {|
  create_token k data := λ s, (Raise (BackendError (Text "unavailable")), s);
  get_token k := λ s, (Raise (TokenNotFound (Text k)), s);
  delete_token k := λ s, (Raise (TokenNotFound (Text k)), s) |}.

(** A store that already holds a record under the id 4b1d. *)
Definition taken : gmap string dict :=
  {[ "4b1d" := ({[ "id" := VStr "4b1d" ]} : dict) ]}.

(** A record as the V2 API left it, without a stored payload, and a store
    that holds it under the id 1e9a. *)
Definition legacy_record : dict :=
  {[ "id" := VStr "1e9a";
     "expires" := VTime 3600;
     "user" := VDict {[ "id" := VStr "alice" ]};
     "tenant" := VDict {[ "id" := VStr "p1" ]} ]}.

Definition legacy_store : gmap string dict := {[ "1e9a" := legacy_record ]}.

(** The dictionary a computation returns, for naming intermediate token
    data without writing it out. *)
Definition returned (c : Exc dict) : dict :=
  match c with Ok d => d | Raise _ => ∅ end.

(** A user asks for a token on a project by password. *)
Definition request (user_id : string) (project_id : pyval)
    (trust : option trust_ref) : issue_kwargs :=
  {| kw_user_id := VStr user_id;
     kw_method_names := VList [VStr "password"];
     kw_expires_at := VNone;
     kw_project_id := project_id;
     kw_domain_id := VNone;
     kw_auth_context := None;
     kw_trust := trust;
     kw_metadata_ref := None |}.

(** alice asks for a token on project p1 that expires at a time the clock
    cannot read. *)
Definition request_unreadable_expiry : issue_kwargs :=
  {| kw_user_id := VStr "alice";
     kw_method_names := VList [VStr "password"];
     kw_expires_at := VStr "tomorrow";
     kw_project_id := VStr "p1";
     kw_domain_id := VNone;
     kw_auth_context := None;
     kw_trust := None;
     kw_metadata_ref := None |}.

(** bob asks for an unscoped token under the trust alice gave him, and
    passes metadata that names a trust of its own. *)
Definition request_with_metadata : issue_kwargs :=
  {| kw_user_id := VStr "bob";
     kw_method_names := VList [VStr "token"];
     kw_expires_at := VNone;
     kw_project_id := VNone;
     kw_domain_id := VNone;
     kw_auth_context := None;
     kw_trust := Some (trust_with ["admin"]);
     kw_metadata_ref :=
       Some (VDict {[ "trust_id" := VStr "t0"; "is_admin" := VBool false ]}) |}.
End Sample.

(** ** Notions the properties are stated with *)

(** A delegated role is held when one of [roles] carries its id. *)
Definition delegated_role_held (roles : list role_ref) (tr : trust_role)
  : Prop :=
  ∃ r, r ∈ roles ∧ role_id r = trust_role_id tr.

(** [v] is the entry of the payload for the delegated role [tr]: a role of
    [roles] with the id of [tr], as the directory returned it. *)
Definition matched_role (roles : list role_ref) (tr : trust_role) (v : pyval)
  : Prop :=
  ∃ r, r ∈ roles ∧ role_id r = trust_role_id tr ∧ v = VDict (role_dict r).

(** The token data an assembly starts from when no earlier token is given. *)
Definition fresh_token_data (method_names extras : pyval) : dict :=
  initial_token_data method_names extras None.

(** The caller passes the check that it is the trustee of the active
    trust, if there is one. *)
Definition caller_is_trustee `{CONF : Conf} (user_id : pyval)
    (trust : option trust_ref) : Prop :=
  match active_trust trust with
  | Some t => py_eq_str user_id (trustee_user_id t) = true
  | None => True
  end.

(** * Properties *)

(** ** Raising computations *)

Lemma bind_Ok {A B} (c : Exc A) (k : A → Exc B) (b : B) :
  c ≫= k = Ok b → ∃ a, c = Ok a ∧ k a = Ok b.
Proof. destruct c as [a|e]; simpl; intros H; [eauto | discriminate]. Qed.

Lemma bind_Raise {A B} (c : Exc A) (k : A → Exc B) (e : exn) :
  c ≫= k = Raise e → c = Raise e ∨ ∃ a, c = Ok a ∧ k a = Raise e.
Proof.
  destruct c as [a|e']; simpl; intros H; [right; eauto | left; congruence].
Qed.

Lemma dict_has_true (d : dict) (k : string) :
  dict_has d k = true ↔ is_Some (d !! k).
Proof. unfold dict_has. apply bool_decide_eq_true. Qed.

Lemma dict_has_false (d : dict) (k : string) :
  dict_has d k = false ↔ d !! k = None.
Proof.
  unfold dict_has. rewrite bool_decide_eq_false, eq_None_not_Some. done.
Qed.

Lemma dict_has_insert (d : dict) (k k' : string) (v : pyval) :
  dict_has (<[k := v]> d) k' = bool_decide (k = k') || dict_has d k'.
Proof.
  unfold dict_has. destruct (decide (k = k')) as [->|Hne].
  - rewrite lookup_insert_eq, bool_decide_eq_true_2 by done.
    by rewrite bool_decide_eq_true_2 by eauto.
  - rewrite lookup_insert_ne by done. by rewrite (bool_decide_eq_false_2 (k = k')).
Qed.

(** Splits a hypothesis [c ≫= k = Ok b] into its two halves. *)
Tactic Notation "exc_inv" hyp(H) "as" simple_intropattern(a) ident(Ha) :=
  apply bind_Ok in H; destruct H as (a & Ha & H).

Ltac exc_simpl :=
  repeat match goal with
         | H : Ok _ = Ok _ |- _ => injection H as H; try subst
         | H : Raise _ = Ok _ |- _ => discriminate H
         | H : mret _ = Ok _ |- _ => injection H as H; try subst
         end.

(** Closes an equation between closed terms by evaluating both sides. *)
Ltac by_evaluation :=
  lazymatch goal with
  | |- ?x = ?y => exact (@eq_refl _ y <: x = y)
  end.

(** ** The population steps leave the other fields alone *)

Section Frame.
Context `{CONF : Conf} `{identity_api : IdentityApi}
        `{catalog_api : CatalogApi} `{timeutils : TimeUtils}.

Lemma _populate_scope_frame td d p td' k :
  _populate_scope td d p = Ok td' →
  k ≠ "domain" → k ≠ "project" → td' !! k = td !! k.
Proof.
  unfold _populate_scope. intros H Hd Hp.
  destruct (dict_has td "domain" || dict_has td "project"); [by exc_simpl|].
  exc_inv H as td1 H1.
  assert (td1 !! k = td !! k) as <-.
  { destruct (truthy d); [|by exc_simpl].
    exc_inv H1 as dom Hdom. exc_simpl. by rewrite lookup_insert_ne. }
  destruct (truthy p); [|by exc_simpl].
  exc_inv H as prj Hprj. exc_simpl. by rewrite lookup_insert_ne.
Qed.

Lemma _populate_user_frame td u d p trust td' k :
  _populate_user td u d p trust = Ok td' →
  k ≠ "user" → k ≠ "OS-TRUST:trust" → td' !! k = td !! k.
Proof.
  unfold _populate_user. intros H Hu Ht.
  destruct (dict_has td "user"); [by exc_simpl|].
  exc_inv H as user_ref Huser. exc_inv H as [user_ref' td1] Htrust.
  exc_inv H as dom Hdom. exc_simpl. rewrite lookup_insert_ne by done.
  destruct (active_trust trust) as [t|]; [|by exc_simpl].
  destruct (negb (dict_has td "OS-TRUST:trust")); [|by exc_simpl].
  exc_inv Htrust as trustor Htrustor.
  destruct (negb (user_ref_enabled trustor)); [discriminate|].
  exc_simpl. by rewrite lookup_insert_ne.
Qed.

Lemma _populate_roles_frame td u d p trust td' k :
  _populate_roles td u d p trust = Ok td' →
  k ≠ "roles" → td' !! k = td !! k.
Proof.
  unfold _populate_roles. intros H Hk.
  destruct (dict_has td "roles"); [by exc_simpl|].
  destruct (token_scope u d p trust) as [[tu tp] tdm].
  destruct (truthy tdm || truthy tp); [|by exc_simpl].
  exc_inv H as roles Hroles. exc_inv H as filtered Hfiltered.
  destruct (negb (truthy (VList filtered))); [discriminate|].
  exc_simpl. by rewrite lookup_insert_ne.
Qed.

Lemma _populate_service_catalog_frame td u d p trust td' k :
  _populate_service_catalog td u d p trust = Ok td' →
  k ≠ "catalog" → td' !! k = td !! k.
Proof.
  unfold _populate_service_catalog. intros H Hk.
  destruct (dict_has td "catalog"); [by exc_simpl|].
  destruct (truthy p || truthy d); [|by exc_simpl].
  exc_inv H as cat Hcat. exc_simpl. by rewrite lookup_insert_ne.
Qed.

Lemma _populate_token_dates_frame td e trust td' k :
  _populate_token_dates td e trust = Ok td' →
  k ≠ "expires_at" → k ≠ "issued_at" → td' !! k = td !! k.
Proof.
  unfold _populate_token_dates. intros H He Hi.
  exc_inv H as exp Hexp. exc_simpl. by rewrite !lookup_insert_ne.
Qed.
End Frame.

(** ** Roles under a trust *)

Section TrustRoles.
Context `{CONF : Conf} `{identity_api : IdentityApi}
        `{catalog_api : CatalogApi} `{timeutils : TimeUtils}.

Lemma filter_role_id_nil (roles : list role_ref) (tr : trust_role) :
  filter (λ x, role_id x = trust_role_id tr) roles = [] ↔
  ¬ delegated_role_held roles tr.
Proof.
  unfold delegated_role_held. split.
  - intros Hnil (r & Hin & Hid).
    assert (r ∈ filter (λ x, role_id x = trust_role_id tr) roles) as Hr
      by (apply list_elem_of_filter; done).
    rewrite Hnil in Hr. by apply not_elem_of_nil in Hr.
  - intros Hno. destruct (filter _ roles) as [|r l] eqn:Hf; [done|].
    exfalso. apply Hno. exists r.
    assert (r ∈ filter (λ x, role_id x = trust_role_id tr) roles) as Hr
      by (rewrite Hf; left).
    apply list_elem_of_filter in Hr. tauto.
Qed.

Lemma trust_filtered_roles_unmatched t roles :
  Exists (λ tr, ¬ delegated_role_held roles tr) (trust_roles t) →
  trust_filtered_roles t roles =
    Raise (Forbidden (Text "Trustee have no delegated roles.")).
Proof.
  unfold trust_filtered_roles. generalize (trust_roles t) as trs.
  induction trs as [|tr trs IH]; intros Hex; [by apply Exists_nil in Hex|].
  simpl. destruct (filter _ roles) as [|r l] eqn:Hf; [done|]. simpl.
  apply Exists_cons in Hex as [Hno|Hex].
  - apply filter_role_id_nil in Hno. congruence.
  - by rewrite (IH Hex).
Qed.

Lemma trust_filtered_roles_matched t roles :
  Forall (delegated_role_held roles) (trust_roles t) →
  ∃ filtered, trust_filtered_roles t roles = Ok filtered ∧
              Forall2 (matched_role roles) (trust_roles t) filtered.
Proof.
  unfold trust_filtered_roles. generalize (trust_roles t) as trs.
  induction trs as [|tr trs IH]; intros Hall.
  - exists []. split; [done | constructor].
  - apply Forall_cons in Hall as [Hheld Hall].
    destruct (IH Hall) as (filtered & Hmap & Hrel). simpl.
    destruct (filter _ roles) as [|r l] eqn:Hf.
    { apply filter_role_id_nil in Hf. contradiction. }
    simpl. rewrite Hmap. simpl. eexists. split; [reflexivity|].
    constructor; [|done]. exists r.
    assert (r ∈ filter (λ x, role_id x = trust_role_id tr) roles) as Hr
      by (rewrite Hf; left).
    apply list_elem_of_filter in Hr. tauto.
Qed.

(** The roles step under an active trust whose project is set. *)
Lemma _populate_roles_trust td u d p trust t roles :
  active_trust trust = Some t →
  td !! "roles" = None →
  truthy (trust_project_id t) = true →
  _get_roles_for_user (VStr (trustor_user_id t)) VNone (trust_project_id t)
    = Ok roles →
  _populate_roles td u d p trust =
    filtered ← trust_filtered_roles t roles;
    if negb (truthy (VList filtered)) then
      Raise (Unauthorized (no_access_msg u (trust_project_id t) VNone))
    else mret (<["roles" := VList filtered]> td).
Proof.
  intros Ht Htd Hp Hroles. unfold _populate_roles, token_scope.
  apply dict_has_false in Htd. rewrite Htd, Ht, Hp. simpl.
  rewrite Hroles. simpl. unfold filtered_roles_of. by rewrite Ht.
Qed.

(** A fresh assembly reaches the roles step without a [roles] field. *)
Lemma fresh_before_roles methods extras u d p trust td1 td2 :
  _populate_scope (fresh_token_data methods extras) d p = Ok td1 →
  _populate_user td1 u d p trust = Ok td2 →
  td2 !! "roles" = None.
Proof.
  intros Hscope Huser.
  rewrite (_populate_user_frame _ _ _ _ _ _ _ Huser) by done.
  rewrite (_populate_scope_frame _ _ _ _ _ Hscope) by done.
  done.
Qed.
End TrustRoles.

Section DelegatedRoles.
Context `{CONF : Conf} `{identity_api : IdentityApi}
        `{catalog_api : CatalogApi} `{timeutils : TimeUtils}.

(** C1 (as amended).  In an issuance under an active trust whose project is
    set, once the scope and the user are populated and the roles of the
    trustor on the project of the trust are resolved: if a delegated role
    is not among them, the assembly fails with Forbidden "Trustee have no
    delegated roles."; if every delegated role is among them and at least
    one role is delegated, the roles of the payload are, in the order of
    the delegation, the matching roles of the trustor; and if no role is
    delegated at all, the assembly fails with Unauthorized, naming the
    project of the trust. *)
Theorem trust_delegated_roles
    (user_id methods extras domain_id project_id expires : pyval)
    (trust : option trust_ref) (t : trust_ref) (td1 td2 : dict)
    (roles : list role_ref) :
  active_trust trust = Some t →
  py_eq_str user_id (trustee_user_id t) = true →
  _populate_scope (fresh_token_data methods extras) domain_id project_id
    = Ok td1 →
  _populate_user td1 user_id domain_id project_id trust = Ok td2 →
  truthy (trust_project_id t) = true →
  _get_roles_for_user (VStr (trustor_user_id t)) VNone (trust_project_id t)
    = Ok roles →
  let result :=
    get_token_data user_id methods extras domain_id project_id expires
                   trust None in
  (Exists (λ tr, ¬ delegated_role_held roles tr) (trust_roles t) →
   result = Raise (Forbidden (Text "Trustee have no delegated roles.")))
  ∧ (Forall (delegated_role_held roles) (trust_roles t) →
     trust_roles t ≠ [] →
     ∃ filtered,
       Forall2 (matched_role roles) (trust_roles t) filtered
       ∧ _populate_roles td2 user_id domain_id project_id trust
         = Ok (<["roles" := VList filtered]> td2)
       ∧ ∀ payload, result = Ok payload →
           ∃ td, payload = {[ "token" := VDict td ]}
                 ∧ td !! "roles" = Some (VList filtered))
  ∧ (trust_roles t = [] →
     result = Raise (Unauthorized
                       (no_access_msg user_id (trust_project_id t) VNone))).
Proof.
  intros Ht Htrustee Hscope Huser Hp Hroles result.
  pose proof (fresh_before_roles _ _ _ _ _ _ _ _ Hscope Huser) as Hfresh.
  pose proof (_populate_roles_trust td2 user_id domain_id project_id
                trust t roles Ht Hfresh Hp Hroles) as Hstep.
  assert (result =
            td ← (td3 ← _populate_roles td2 user_id domain_id project_id
                                        trust;
                  td4 ← _populate_service_catalog td3 user_id domain_id
                                                  project_id trust;
                  _populate_token_dates td4 expires trust);
            mret ({[ "token" := VDict td ]} : dict)) as Hresult.
  { subst result. unfold get_token_data, populate.
    change (initial_token_data methods extras None)
      with (fresh_token_data methods extras).
    rewrite Ht, Htrustee, Hscope. simpl. rewrite Huser. reflexivity. }
  split; [|split].
  - intros Hex. rewrite Hresult, Hstep.
    by rewrite (trust_filtered_roles_unmatched _ _ Hex).
  - intros Hall Hne.
    destruct (trust_filtered_roles_matched _ _ Hall)
      as (filtered & Hmap & Hrel).
    assert (truthy (VList filtered) = true) as Hnonempty.
    { simpl. apply negb_true_iff, bool_decide_eq_false. intros ->.
      apply Forall2_nil_inv_r in Hrel. contradiction. }
    assert (_populate_roles td2 user_id domain_id project_id trust
            = Ok (<["roles" := VList filtered]> td2)) as Hok.
    { rewrite Hstep, Hmap. simpl in *. by rewrite Hnonempty. }
    exists filtered. split; [done|]. split; [done|].
    intros payload Hpayload. rewrite Hresult, Hok in Hpayload.
    simpl in Hpayload.
    exc_inv Hpayload as td Htd. exc_simpl. exists td. split; [done|].
    exc_inv Htd as td4 Hcat.
    rewrite (_populate_token_dates_frame _ _ _ _ _ Htd) by done.
    rewrite (_populate_service_catalog_frame _ _ _ _ _ _ _ Hcat) by done.
    apply lookup_insert_eq.
  - intros Hnil. rewrite Hresult, Hstep. unfold trust_filtered_roles.
    by rewrite Hnil.
Qed.
End DelegatedRoles.

Section DelegatedRolesSample.
#[local] Existing Instances Sample.conf Sample.identity Sample.catalog
  Sample.timeutils.

(** bob, trustee of alice for the admin role alone, gets a payload whose
    roles are alice's admin role and nothing else. *)
Lemma trust_delegated_roles_witness :
  ∃ filtered,
    Forall2 (matched_role [Sample.admin; Sample.member])
            (trust_roles (Sample.trust_with ["admin"])) filtered
    ∧ ∀ payload,
        get_token_data (VStr "bob") (VList [VStr "password"]) VNone VNone
          (VStr "p1") VNone (Some (Sample.trust_with ["admin"])) None
        = Ok payload →
        ∃ td, payload = {[ "token" := VDict td ]}
              ∧ td !! "roles" = Some (VList filtered).
Proof.
  pose (trust := Sample.trust_with ["admin"]).
  pose (td1 := Sample.returned
                 (_populate_scope
                    (fresh_token_data (VList [VStr "password"]) VNone)
                    VNone (VStr "p1"))).
  pose (td2 := Sample.returned
                 (_populate_user td1 (VStr "bob") VNone (VStr "p1")
                                 (Some trust))).
  destruct (trust_delegated_roles (VStr "bob") (VList [VStr "password"])
              VNone VNone (VStr "p1") VNone (Some trust) trust td1 td2
              [Sample.admin; Sample.member])
    as (_ & Hmatched & _).
  - reflexivity.
  - reflexivity.
  - by_evaluation.
  - by_evaluation.
  - reflexivity.
  - by_evaluation.
  - destruct Hmatched as (filtered & Hrel & _ & Hpayload).
    + repeat constructor. exists Sample.admin. split; [left | reflexivity].
    + discriminate.
    + exists filtered. split; [exact Hrel | exact Hpayload].
Defined.

(** C1, counterexample.  alice holds admin and member on project p1 and
    delegates no role at all to bob: every delegated role is matched, yet
    the assembly yields no payload and is denied instead. *)
Lemma trust_without_roles_denied :
  let trust := Sample.trust_with [] in
  _get_roles_for_user (VStr (trustor_user_id trust)) VNone
                      (trust_project_id trust)
    = Ok [Sample.admin; Sample.member]
  ∧ Forall (delegated_role_held [Sample.admin; Sample.member])
           (trust_roles trust)
  ∧ get_token_data (VStr "bob") (VList [VStr "password"]) VNone VNone
      (VStr "p1") VNone (Some trust) None
    = Raise (Unauthorized
               (Format
                  "User %(user_id)s have no access to project %(project_id)s"
                  [("user_id", VStr "bob"); ("project_id", VStr "p1")])).
Proof.
  split; [|split].
  - by_evaluation.
  - constructor.
  - by_evaluation.
Qed.
End DelegatedRolesSample.


(** ** Denial when no role is left *)

Section EmptyRoles.
Context `{CONF : Conf} `{identity_api : IdentityApi}
        `{catalog_api : CatalogApi} `{timeutils : TimeUtils}
        `{trust_api : TrustApi} `{token_provider : TokenProvider}
        {S : Type} `{token_api : TokenApi S}.

(** An issuance whose assembly fails raises the failure of the assembly and
    never reaches the store. *)
Lemma issue_assembly_fails kwargs token_id (s : S) trust e :
  issue_trust kwargs = Ok trust →
  get_token_data (kw_user_id kwargs) (kw_method_names kwargs)
    (auth_extras (kw_auth_context kwargs)) (kw_domain_id kwargs)
    (kw_project_id kwargs) (kw_expires_at kwargs) trust None = Raise e →
  _issue_v3_token kwargs token_id s = (Raise e, s).
Proof.
  intros Htrust Hdata. unfold _issue_v3_token, mbind, store_bind, lift.
  by rewrite Htrust, Hdata.
Qed.

Lemma assembly_empty_roles_denied user_id methods extras domain_id project_id
    expires trust td1 td2 tu tp td roles :
  caller_is_trustee user_id trust →
  _populate_scope (fresh_token_data methods extras) domain_id project_id
    = Ok td1 →
  _populate_user td1 user_id domain_id project_id trust = Ok td2 →
  token_scope user_id domain_id project_id trust = (tu, tp, td) →
  truthy td || truthy tp = true →
  _get_roles_for_user tu td tp = Ok roles →
  filtered_roles_of trust roles = Ok [] →
  get_token_data user_id methods extras domain_id project_id expires trust
                 None
  = Raise (Unauthorized (no_access_msg user_id tp td)).
Proof.
  intros Htrustee Hscope Huser Hts Htruthy Hroles Hfiltered.
  pose proof (fresh_before_roles _ _ _ _ _ _ _ _ Hscope Huser) as Hfresh.
  apply dict_has_false in Hfresh.
  unfold get_token_data, populate.
  change (initial_token_data methods extras None)
    with (fresh_token_data methods extras).
  assert (match active_trust trust with
          | Some trust =>
              if negb (py_eq_str user_id (trustee_user_id trust)) then
                Raise (Forbidden (Text "User is not a trustee."))
              else mret ()
          | None => mret ()
          end = Ok ()) as ->.
  { unfold caller_is_trustee in Htrustee.
    destruct (active_trust trust); [by rewrite Htrustee | done]. }
  simpl. rewrite Hscope. simpl. rewrite Huser. simpl.
  unfold _populate_roles. rewrite Hfresh, Hts, Htruthy. simpl.
  rewrite Hroles. simpl. rewrite Hfiltered. reflexivity.
Qed.
(** C2.  An issuance with a domain or project scope in effect, in which the
    scope and the user are populated and the roles left for the effective
    principal after filtering are none, fails with Unauthorized; the message
    names the project when a project scope is in effect and the domain
    otherwise; and the token store is left as it was: nothing is written. *)
Theorem issue_without_roles_denied kwargs token_id (s : S) trust td1 td2
    tu tp td roles :
  issue_trust kwargs = Ok trust →
  caller_is_trustee (kw_user_id kwargs) trust →
  _populate_scope
    (fresh_token_data (kw_method_names kwargs)
                      (auth_extras (kw_auth_context kwargs)))
    (kw_domain_id kwargs) (kw_project_id kwargs) = Ok td1 →
  _populate_user td1 (kw_user_id kwargs) (kw_domain_id kwargs)
                 (kw_project_id kwargs) trust = Ok td2 →
  token_scope (kw_user_id kwargs) (kw_domain_id kwargs)
              (kw_project_id kwargs) trust = (tu, tp, td) →
  truthy td || truthy tp = true →
  _get_roles_for_user tu td tp = Ok roles →
  filtered_roles_of trust roles = Ok [] →
  ∃ m,
    issue_token V3 kwargs token_id s = (Raise (Unauthorized m), s)
    ∧ (truthy tp = true →
       m = Format "User %(user_id)s have no access to project %(project_id)s"
                  [("user_id", kw_user_id kwargs); ("project_id", tp)])
    ∧ (truthy tp = false →
       m = Format "User %(user_id)s have no access to domain %(domain_id)s"
                  [("user_id", kw_user_id kwargs); ("domain_id", td)]).
Proof.
  intros Htrust Htrustee Hscope Huser Hts Htruthy Hroles Hfiltered.
  exists (no_access_msg (kw_user_id kwargs) tp td). split; [|split].
  - unfold issue_token. rewrite bool_decide_eq_true_2 by done.
    apply (issue_assembly_fails _ _ _ trust); [done|].
    by eapply assembly_empty_roles_denied.
  - intros Hp. unfold no_access_msg. by rewrite Hp.
  - intros Hp. unfold no_access_msg. by rewrite Hp.
Qed.
End EmptyRoles.

Section EmptyRolesSample.
#[local] Existing Instances Sample.conf Sample.identity Sample.catalog
  Sample.timeutils Sample.trusts Sample.provider Sample.store.

(** bob holds no role on project p1: his request for a token on it is
    denied, the denial names p1, and the store stays empty. *)
Lemma issue_without_roles_denied_witness :
  issue_token "v3.0" (Sample.request "bob" (VStr "p1") None) "4b1d" ∅
  = (Raise (Unauthorized
              (Format
                 "User %(user_id)s have no access to project %(project_id)s"
                 [("user_id", VStr "bob"); ("project_id", VStr "p1")])),
     ∅).
Proof.
  pose (kwargs := Sample.request "bob" (VStr "p1") None).
  pose (td1 := Sample.returned
                 (_populate_scope
                    (fresh_token_data (VList [VStr "password"]) VNone)
                    VNone (VStr "p1"))).
  pose (td2 := Sample.returned
                 (_populate_user td1 (VStr "bob") VNone (VStr "p1") None)).
  destruct (issue_without_roles_denied kwargs "4b1d" (∅ : gmap string dict)
              None td1 td2 (VStr "bob") (VStr "p1") VNone [])
    as (m & Hissue & Hproject & _).
  - reflexivity.
  - exact I.
  - by_evaluation.
  - by_evaluation.
  - reflexivity.
  - reflexivity.
  - by_evaluation.
  - reflexivity.
  - rewrite (Hproject eq_refl) in Hissue. exact Hissue.
Defined.
End EmptyRolesSample.

(** ** A failed write and the record already in the store *)

Section Collision.
Context `{CONF : Conf} `{identity_api : IdentityApi}
        `{catalog_api : CatalogApi} `{timeutils : TimeUtils}
        `{trust_api : TrustApi} `{token_provider : TokenProvider}
        {S : Type} `{token_api : TokenApi S}.

(** C3.  When the payload is assembled, the record is built and
    [create_token] fails with an error [e], whatever it is, the store is
    looked up again under the id just drawn: if a record is there, the
    issuance returns the id and the payload; if the lookup raises
    [TokenNotFound], the issuance raises [e] itself. *)
Theorem issue_collision_tolerance kwargs token_id (s s1 : S) trust token_data
    data e :
  issue_trust kwargs = Ok trust →
  get_token_data (kw_user_id kwargs) (kw_method_names kwargs)
    (auth_extras (kw_auth_context kwargs)) (kw_domain_id kwargs)
    (kw_project_id kwargs) (kw_expires_at kwargs) trust None
    = Ok token_data →
  token_record kwargs trust token_id token_data = Ok data →
  create_token token_id data s = (Raise e, s1) →
  (∀ record s2,
     get_token token_id s1 = (Ok record, s2) →
     issue_token V3 kwargs token_id s = (Ok (token_id, token_data), s2))
  ∧ (∀ m s2,
       get_token token_id s1 = (Raise (TokenNotFound m), s2) →
       issue_token V3 kwargs token_id s = (Raise e, s2)).
Proof.
  intros Htrust Hdata Hrecord Hcreate.
  unfold issue_token. rewrite bool_decide_eq_true_2 by done.
  unfold _issue_v3_token, store_token_data, try_except, mbind, store_bind,
    lift.
  rewrite Htrust, Hdata, Hrecord, Hcreate. simpl.
  split.
  - intros record s2 Hget. by rewrite Hget.
  - intros m s2 Hget. by rewrite Hget.
Qed.
End Collision.

Section CollisionSample.
#[local] Existing Instances Sample.conf Sample.identity Sample.catalog
  Sample.timeutils Sample.trusts Sample.provider.

(** alice is issued a token under an id the store already holds a record
    for: the write is refused and the issuance succeeds all the same.  With
    the store out of service the failure of the write comes back as it
    is. *)
Lemma issue_collision_tolerance_witness :
  (∃ token_data,
     @issue_token _ _ _ _ _ _ _ Sample.store "v3.0"
       (Sample.request "alice" (VStr "p1") None) "4b1d" Sample.taken
     = (Ok ("4b1d", token_data), Sample.taken))
  ∧ @issue_token _ _ _ _ _ _ _ Sample.store_down "v3.0"
      (Sample.request "alice" (VStr "p1") None) "4b1d" ()
    = (Raise (BackendError (Text "unavailable")), ()).
Proof.
  pose (kwargs := Sample.request "alice" (VStr "p1") None).
  pose (token_data :=
          Sample.returned
            (get_token_data (VStr "alice") (VList [VStr "password"]) VNone
                            VNone (VStr "p1") VNone None None)).
  pose (data := Sample.returned (token_record kwargs None "4b1d" token_data)).
  split.
  - destruct (@issue_collision_tolerance _ _ _ _ _ _ _ Sample.store
                kwargs "4b1d" Sample.taken Sample.taken None token_data data
                (BackendError (Text "duplicate key")))
      as [Hfound _].
    + reflexivity.
    + by_evaluation.
    + by_evaluation.
    + by_evaluation.
    + exists token_data.
      apply (Hfound ({[ "id" := VStr "4b1d" ]} : dict) Sample.taken).
      by_evaluation.
  - destruct (@issue_collision_tolerance _ _ _ _ _ _ _ Sample.store_down
                kwargs "4b1d" () () None token_data data
                (BackendError (Text "unavailable")))
      as [_ Hmissing].
    + reflexivity.
    + by_evaluation.
    + by_evaluation.
    + by_evaluation.
    + apply (Hmissing (Text "4b1d") ()). by_evaluation.
Defined.
End CollisionSample.

(** ** Validation of a freshly issued token *)

Section Roundtrip.
Context `{CONF : Conf} `{identity_api : IdentityApi}
        `{catalog_api : CatalogApi} `{timeutils : TimeUtils}
        `{trust_api : TrustApi} `{token_provider : TokenProvider}
        {S : Type} `{token_api : TokenApi S}.

(** An assembled payload is a dictionary with the single key [token]. *)
Lemma get_token_data_shape u m x d p e trust token payload :
  get_token_data u m x d p e trust token = Ok payload →
  ∃ td, payload = {[ "token" := VDict td ]}.
Proof.
  unfold get_token_data. intros H.
  exc_inv H as checked Hcheck. exc_inv H as td Htd. exc_simpl. eauto.
Qed.

(** The record derived from a payload keeps the payload under
    [token_data] and is not empty. *)
Lemma token_record_token_data kwargs trust token_id token_data data :
  token_record kwargs trust token_id token_data = Ok data →
  data !! "token_data" = Some (VDict token_data) ∧ data ≠ ∅.
Proof.
  unfold token_record. intros H.
  exc_inv H as token Htoken. exc_inv H as expiry0 Hexpiry0.
  exc_inv H as expiry Hexpiry. exc_inv H as has_project Hhas.
  exc_inv H as metadata0 Hmetadata0. exc_inv H as metadata Hmetadata.
  exc_inv H as user Huser. exc_inv H as tenant Htenant. exc_simpl.
  split.
  - by simplify_map_eq.
  - apply insert_non_empty.
Qed.

(** The store returns under a key the record that was created under it. *)
Hypothesis get_after_create : ∀ k data (s s' : S),
  create_token k data s = (Ok (), s') → get_token k s' = (Ok data, s').

(** C4.  When an issuance assembles a payload and writes its record to the
    store, it returns the payload, and validating the id it returns, with
    the same version, yields that very payload: the stored payload is
    handed back as it is, whatever the directories, the catalog and the
    clock are at the time of the validation. *)
Theorem validate_fresh_token kwargs token_id (s s' : S) trust token_data data
    belongs_to :
  issue_trust kwargs = Ok trust →
  get_token_data (kw_user_id kwargs) (kw_method_names kwargs)
    (auth_extras (kw_auth_context kwargs)) (kw_domain_id kwargs)
    (kw_project_id kwargs) (kw_expires_at kwargs) trust None
    = Ok token_data →
  token_record kwargs trust token_id token_data = Ok data →
  create_token token_id data s = (Ok (), s') →
  issue_token V3 kwargs token_id s = (Ok (token_id, token_data), s')
  ∧ ∀ (CONF' : Conf) (identity_api' : IdentityApi)
      (catalog_api' : CatalogApi) (timeutils' : TimeUtils),
      @validate_token CONF' identity_api' catalog_api' timeutils'
        token_provider S token_api token_id belongs_to V3 s'
      = (Ok (VDict token_data), s').
Proof using get_after_create.
  intros Htrust Hdata Hrecord Hcreate. split.
  - unfold issue_token. rewrite bool_decide_eq_true_2 by done.
    unfold _issue_v3_token, store_token_data, try_except, mbind, store_bind,
      lift.
    by rewrite Htrust, Hdata, Hrecord, Hcreate.
  - intros CONF' identity_api' catalog_api' timeutils'.
    destruct (token_record_token_data _ _ _ _ _ Hrecord) as [Hstored Hne].
    destruct (get_token_data_shape _ _ _ _ _ _ _ _ _ Hdata) as [td ->].
    unfold validate_token. rewrite bool_decide_eq_true_2 by done.
    unfold try_except, _validate_v3_token, _verify_token, mbind, store_bind,
      lift.
    rewrite (get_after_create _ _ _ _ Hcreate). simpl.
    rewrite (bool_decide_eq_false_2 (data = ∅)) by done. simpl.
    unfold dict_get. rewrite Hstored. unfold lacks_token. simpl.
    rewrite (bool_decide_eq_false_2 (_ = ∅))
      by apply map_non_empty_singleton.
    simpl. unfold dict_has.
    rewrite bool_decide_eq_true_2 by (rewrite lookup_singleton_eq; eauto).
    reflexivity.
Qed.
End Roundtrip.

Section RoundtripSample.
#[local] Existing Instances Sample.conf Sample.identity Sample.catalog
  Sample.timeutils Sample.trusts Sample.provider Sample.store.

Lemma sample_store_get_after_create k data (s s' : gmap string dict) :
  create_token k data s = (Ok (), s') → get_token k s' = (Ok data, s').
Proof.
  simpl. destruct (s !! k) eqn:Hk; [discriminate|].
  intros [= <-]. by rewrite lookup_insert_eq.
Qed.

(** alice is issued a token on project p1 under the id 4b1d into an empty
    store, and validating 4b1d returns the payload she was handed, also
    when the catalog backend has lost its V3 support since. *)
Lemma validate_fresh_token_witness :
  ∃ token_data s',
    issue_token "v3.0" (Sample.request "alice" (VStr "p1") None) "4b1d" ∅
    = (Ok ("4b1d", token_data), s')
    ∧ @validate_token Sample.conf Sample.identity Sample.no_catalog
        Sample.timeutils Sample.provider _ Sample.store "4b1d" None "v3.0" s'
      = (Ok (VDict token_data), s').
Proof.
  pose (kwargs := Sample.request "alice" (VStr "p1") None).
  pose (token_data :=
          Sample.returned
            (get_token_data (VStr "alice") (VList [VStr "password"]) VNone
                            VNone (VStr "p1") VNone None None)).
  pose (data := Sample.returned (token_record kwargs None "4b1d" token_data)).
  exists token_data, {[ "4b1d" := data ]}.
  destruct (validate_fresh_token sample_store_get_after_create kwargs "4b1d"
              (∅ : gmap string dict) {[ "4b1d" := data ]} None token_data
              data None)
    as [Hissue Hvalidate].
  - reflexivity.
  - by_evaluation.
  - by_evaluation.
  - by_evaluation.
  - split; [exact Hissue | apply Hvalidate].
Defined.

(** C4, counterexample.  bob is issued an unscoped token under the id
    4b1d.  alice is then issued a token on project p1 for which the same id
    is drawn: the store refuses the second record, the record of bob is
    found under the id, and the issuance hands alice the id and her payload
    all the same.  Validating the id alice was handed returns the payload
    of bob, which is not the payload she was handed. *)
Lemma issue_over_held_id_validates_other :
  let held :=
    Sample.returned
      (get_token_data (VStr "bob") (VList [VStr "password"]) VNone VNone
                      VNone VNone None None) in
  let issued :=
    Sample.returned
      (get_token_data (VStr "alice") (VList [VStr "password"]) VNone VNone
                      (VStr "p1") VNone None None) in
  let s : gmap string dict :=
    {[ "4b1d" :=
         Sample.returned
           (token_record (Sample.request "bob" VNone None) None "4b1d"
                         held) ]} in
  issue_token "v3.0" (Sample.request "bob" VNone None) "4b1d" ∅
  = (Ok ("4b1d", held), s)
  ∧ issue_token "v3.0" (Sample.request "alice" (VStr "p1") None) "4b1d" s
    = (Ok ("4b1d", issued), s)
  ∧ validate_token "4b1d" None "v3.0" s = (Ok (VDict held), s)
  ∧ held ≠ issued.
Proof.
  intros held issued s.
  split; [by_evaluation|]. split; [by_evaluation|]. split; [by_evaluation|].
  intros Heq.
  assert ((token ← dict_getitem held "token"; py_contains "project" token)
          = Ok false) as Hheld by by_evaluation.
  assert ((token ← dict_getitem issued "token"; py_contains "project" token)
          = Ok true) as Hissued by by_evaluation.
  rewrite Heq in Hheld. rewrite Hheld in Hissued. discriminate.
Qed.
End RoundtripSample.

(** ** The trustor of an active trust *)

Section Trustor.
Context `{CONF : Conf} `{identity_api : IdentityApi}
        `{catalog_api : CatalogApi} `{timeutils : TimeUtils}.

(** A carried field comes from the earlier token when it has it; every
    other field is the one the token data had. *)
Lemma carry_over_lookup (token td : dict) (k : string) :
  carry_over token td !! k =
    if bool_decide (k ∈ carried_fields) then
      match token !! k with Some v => Some v | None => td !! k end
    else td !! k.
Proof.
  unfold carry_over. generalize carried_fields as fields. intros fields.
  revert td. induction fields as [|x fields IH]; intros td.
  { cbn [foldl]. case_bool_decide as Hin; [|done].
    by apply not_elem_of_nil in Hin. }
  cbn [foldl]. rewrite IH.
  assert ((match token !! x with
           | Some v => <[x:=v]> td
           | None => td
           end) !! k
          = if decide (k = x) then
              match token !! k with Some v => Some v | None => td !! k end
            else td !! k) as Hstep.
  { destruct (decide (k = x)) as [->|Hne].
    - destruct (token !! x); [by rewrite lookup_insert_eq | done].
    - destruct (token !! x); [by rewrite lookup_insert_ne | done]. }
  rewrite Hstep. clear Hstep IH.
  destruct (decide (k = x)) as [->|Hne].
  - rewrite (bool_decide_eq_true_2 (x ∈ x :: fields)) by left.
    destruct (bool_decide (x ∈ fields)); by destruct (token !! x).
  - assert (bool_decide (k ∈ x :: fields) = bool_decide (k ∈ fields)) as ->;
      [|done].
    apply bool_decide_ext. rewrite elem_of_cons. tauto.
Qed.

(** What the token data holds before the first population step. *)
Lemma initial_token_data_lookup m x token k :
  k ≠ "methods" → k ≠ "extras" →
  initial_token_data m x token !! k =
    if bool_decide (k ∈ carried_fields) then token ≫= (.!! k) else None.
Proof.
  intros Hm Hx. unfold initial_token_data.
  assert (({[ "methods" := m; "extras" := x ]} : dict) !! k = None) as Hfresh
    by (by rewrite lookup_insert_ne, lookup_singleton_ne).
  destruct token as [token|]; simpl.
  - destruct (bool_decide (token = ∅)) eqn:Hempty; simpl.
    + apply bool_decide_eq_true in Hempty as ->. rewrite lookup_empty, Hfresh.
      by repeat case_bool_decide.
    + rewrite carry_over_lookup, Hfresh.
      destruct (token !! k); repeat case_bool_decide; done.
  - rewrite Hfresh. by repeat case_bool_decide.
Qed.

(** C5 (as amended).  In an assembly under an active trust whose caller is
    the trustee, when the earlier token, if there is one, carries no [user]
    field, once the scope is populated and the caller is resolved, the
    trustor is resolved: a failure to resolve the trustor is the failure of
    the assembly, and a trustor that is disabled makes the assembly fail
    with Forbidden "Trustor is disabled.", whatever else the earlier token
    carries. *)
Theorem disabled_trustor_denied
    (user_id methods extras domain_id project_id expires : pyval)
    (trust : option trust_ref) (t : trust_ref) (token : option dict)
    (td1 : dict) (caller : user_ref) :
  active_trust trust = Some t →
  py_eq_str user_id (trustee_user_id t) = true →
  token ≫= (.!! "user") = None →
  _populate_scope (initial_token_data methods extras token)
                  domain_id project_id = Ok td1 →
  get_user user_id = Ok caller →
  let result :=
    get_token_data user_id methods extras domain_id project_id expires
                   trust token in
  (∀ trustor,
     get_user (VStr (trustor_user_id t)) = Ok trustor →
     user_ref_enabled trustor = false →
     result = Raise (Forbidden (Text "Trustor is disabled.")))
  ∧ (∀ e, get_user (VStr (trustor_user_id t)) = Raise e → result = Raise e).
Proof.
  intros Ht Htrustee Hnouser Hscope Hcaller result.
  assert (td1 !! "user" = None) as Huser.
  { rewrite (_populate_scope_frame _ _ _ _ _ Hscope) by done.
    rewrite initial_token_data_lookup by done. by repeat case_bool_decide. }
  assert (td1 !! "OS-TRUST:trust" = None) as Hblock.
  { rewrite (_populate_scope_frame _ _ _ _ _ Hscope) by done.
    rewrite initial_token_data_lookup by done.
    case_bool_decide as Hin; [|done]. exfalso. revert Hin.
    unfold carried_fields. rewrite !elem_of_cons, elem_of_nil.
    intros [?|[?|[?|[?|[?|[]]]]]]; discriminate. }
  apply dict_has_false in Huser, Hblock.
  subst result. unfold get_token_data, populate.
  rewrite Ht, Htrustee, Hscope. simpl.
  unfold _populate_user. rewrite Huser, Hcaller, Ht, Hblock. simpl.
  split.
  - intros trustor Htrustor Hdisabled. rewrite Htrustor. simpl.
    by rewrite Hdisabled.
  - intros e Htrustor. by rewrite Htrustor.
Qed.
End Trustor.

Section TrustorSample.
#[local] Existing Instances Sample.conf Sample.identity Sample.catalog
  Sample.timeutils.

(** bob is the trustee of carol, who is disabled: assembling his payload on
    project p1 under that trust is refused. *)
Lemma disabled_trustor_denied_witness :
  get_token_data (VStr "bob") (VList [VStr "password"]) VNone VNone
    (VStr "p1") VNone (Some Sample.trust_from_carol) None
  = Raise (Forbidden (Text "Trustor is disabled.")).
Proof.
  pose (td1 := Sample.returned
                 (_populate_scope
                    (initial_token_data (VList [VStr "password"]) VNone None)
                    VNone (VStr "p1"))).
  destruct (disabled_trustor_denied (VStr "bob") (VList [VStr "password"])
              VNone VNone (VStr "p1") VNone (Some Sample.trust_from_carol)
              Sample.trust_from_carol None td1
              {| user_ref_id := "bob"; user_ref_name := "Bob";
                 user_ref_domain_id := "default"; user_ref_enabled := true |})
    as [Hdisabled _].
  - reflexivity.
  - reflexivity.
  - reflexivity.
  - by_evaluation.
  - reflexivity.
  - apply (Hdisabled
             {| user_ref_id := "carol"; user_ref_name := "Carol";
                user_ref_domain_id := "default"; user_ref_enabled := false |});
      reflexivity.
Defined.

(** C5, counterexample.  The same request, with the same trust of the
    disabled carol and no trust block yet, but on top of an earlier token
    that already carries a [user] field: the trustor is never looked at and
    the assembly yields a payload. *)
Lemma carried_user_skips_trustor_check :
  let token : dict :=
    {[ "user" := VDict {[ "id" := VStr "bob"; "name" := VStr "Bob" ]} ]} in
  active_trust (Some Sample.trust_from_carol) = Some Sample.trust_from_carol
  ∧ token !! "OS-TRUST:trust" = None
  ∧ get_user (VStr (trustor_user_id Sample.trust_from_carol))
    = Ok {| user_ref_id := "carol"; user_ref_name := "Carol";
            user_ref_domain_id := "default"; user_ref_enabled := false |}
  ∧ ∃ payload,
      get_token_data (VStr "bob") (VList [VStr "password"]) VNone VNone
        (VStr "p1") VNone (Some Sample.trust_from_carol) (Some token)
      = Ok payload.
Proof.
  intros token. split; [reflexivity|]. split; [by_evaluation|].
  split; [reflexivity|].
  exists (Sample.returned
            (get_token_data (VStr "bob") (VList [VStr "password"]) VNone
               VNone (VStr "p1") VNone (Some Sample.trust_from_carol)
               (Some token))).
  by_evaluation.
Qed.
End TrustorSample.

(** ** Fields an earlier token supplies *)

Section CarryThrough.
Context `{CONF : Conf} `{identity_api : IdentityApi}
        `{catalog_api : CatalogApi} `{timeutils : TimeUtils}.

Lemma _populate_scope_present td d p :
  is_Some (td !! "domain") ∨ is_Some (td !! "project") →
  _populate_scope td d p = Ok td.
Proof.
  intros Hpresent. unfold _populate_scope.
  assert (dict_has td "domain" || dict_has td "project" = true) as ->;
    [|done].
  apply orb_true_iff. by rewrite !dict_has_true.
Qed.

Lemma _populate_user_present td u d p trust :
  is_Some (td !! "user") → _populate_user td u d p trust = Ok td.
Proof.
  intros Hpresent%dict_has_true. unfold _populate_user. by rewrite Hpresent.
Qed.

Lemma _populate_roles_present td u d p trust :
  is_Some (td !! "roles") → _populate_roles td u d p trust = Ok td.
Proof.
  intros Hpresent%dict_has_true. unfold _populate_roles. by rewrite Hpresent.
Qed.

Lemma _populate_service_catalog_present td u d p trust :
  is_Some (td !! "catalog") → _populate_service_catalog td u d p trust = Ok td.
Proof.
  intros Hpresent%dict_has_true. unfold _populate_service_catalog.
  by rewrite Hpresent.
Qed.

(** The dates step writes both dates over whatever is there. *)
Lemma _populate_token_dates_overwrites td e trust k v :
  k = "expires_at" ∨ k = "issued_at" →
  _populate_token_dates (<[k := v]> td) e trust
  = _populate_token_dates td e trust.
Proof.
  intros Hk. unfold _populate_token_dates.
  destruct (if negb (is_basestring _) then _ else _) as [expires|err];
    [|done].
  simpl. f_equal. destruct Hk as [-> | ->].
  - by rewrite insert_insert_eq.
  - rewrite (insert_insert_ne _ "expires_at" "issued_at") by done.
    by rewrite insert_insert_eq.
Qed.

Lemma _populate_token_dates_issued_at td e trust td' :
  _populate_token_dates td e trust = Ok td' →
  td' !! "issued_at" = Some (VStr isotime_now).
Proof.
  unfold _populate_token_dates. intros H. exc_inv H as expires Hexpires.
  exc_simpl. apply lookup_insert_eq.
Qed.

(** No step touches a carried field that is already there. *)
Lemma populate_keeps_carried td u d p e trust td' k v :
  k ∈ carried_fields → td !! k = Some v →
  populate td u d p e trust = Ok td' → td' !! k = Some v.
Proof.
  intros Hk Hv H. unfold populate in H.
  exc_inv H as td1 Hscope. exc_inv H as td2 Huser. exc_inv H as td3 Hroles.
  exc_inv H as td4 Hcatalog.
  assert (k = "roles" ∨ k = "user" ∨ k = "catalog" ∨ k = "project"
          ∨ k = "domain") as Hcases.
  { revert Hk. unfold carried_fields. rewrite !elem_of_cons, elem_of_nil.
    tauto. }
  assert (td1 !! k = Some v) as Hv1.
  { destruct (decide (k = "domain")) as [->|?].
    { rewrite _populate_scope_present in Hscope by eauto. by exc_simpl. }
    destruct (decide (k = "project")) as [->|?].
    { rewrite _populate_scope_present in Hscope by eauto. by exc_simpl. }
    by rewrite (_populate_scope_frame _ _ _ _ _ Hscope). }
  assert (td2 !! k = Some v) as Hv2.
  { destruct (decide (k = "user")) as [->|?].
    { rewrite _populate_user_present in Huser by eauto. by exc_simpl. }
    rewrite (_populate_user_frame _ _ _ _ _ _ _ Huser); [done..|].
    intros ->. destruct Hcases as [?|[?|[?|[?|?]]]]; discriminate. }
  assert (td3 !! k = Some v) as Hv3.
  { destruct (decide (k = "roles")) as [->|?].
    { rewrite _populate_roles_present in Hroles by eauto. by exc_simpl. }
    by rewrite (_populate_roles_frame _ _ _ _ _ _ _ Hroles). }
  assert (td4 !! k = Some v) as Hv4.
  { destruct (decide (k = "catalog")) as [->|?].
    { rewrite _populate_service_catalog_present in Hcatalog by eauto.
      by exc_simpl. }
    by rewrite (_populate_service_catalog_frame _ _ _ _ _ _ _ Hcatalog). }
  rewrite (_populate_token_dates_frame _ _ _ _ _ H); [done|..];
    intros ->; destruct Hcases as [?|[?|[?|[?|?]]]]; discriminate.
Qed.
End CarryThrough.

Section CarriedFields.
Context `{CONF : Conf} `{identity_api : IdentityApi}
        `{catalog_api : CatalogApi} `{timeutils : TimeUtils}.

(** C6 (as amended).  The user, roles and catalog steps do nothing when
    their field is already in the token data, and the scope step does
    nothing as soon as either a domain or a project is there; the dates
    step writes both dates whatever the token data holds; and in an
    assembly on top of an earlier token, each of the fields roles, user,
    catalog, project and domain that the earlier token supplies is in the
    payload exactly as supplied. *)
Theorem carried_fields_kept :
  (∀ td d p,
     is_Some (td !! "domain") ∨ is_Some (td !! "project") →
     _populate_scope td d p = Ok td)
  ∧ (∀ td u d p trust,
       is_Some (td !! "user") → _populate_user td u d p trust = Ok td)
  ∧ (∀ td u d p trust,
       is_Some (td !! "roles") → _populate_roles td u d p trust = Ok td)
  ∧ (∀ td u d p trust,
       is_Some (td !! "catalog") →
       _populate_service_catalog td u d p trust = Ok td)
  ∧ (∀ td e trust k v,
       k = "expires_at" ∨ k = "issued_at" →
       _populate_token_dates (<[k := v]> td) e trust
       = _populate_token_dates td e trust)
  ∧ (∀ u m x d p e trust (token : dict) k v payload,
       k ∈ carried_fields → token !! k = Some v →
       get_token_data u m x d p e trust (Some token) = Ok payload →
       ∃ td, payload = {[ "token" := VDict td ]} ∧ td !! k = Some v).
Proof.
  split; [apply _populate_scope_present|].
  split; [apply _populate_user_present|].
  split; [apply _populate_roles_present|].
  split; [apply _populate_service_catalog_present|].
  split; [apply _populate_token_dates_overwrites|].
  intros u m x d p e trust token k v payload Hk Hv H.
  unfold get_token_data in H.
  exc_inv H as checked Hcheck. exc_inv H as td Htd. exc_simpl.
  exists td. split; [done|].
  eapply populate_keeps_carried; [exact Hk| |exact Htd].
  rewrite initial_token_data_lookup.
  - by rewrite bool_decide_eq_true_2.
  - intros ->. revert Hk. unfold carried_fields.
    rewrite !elem_of_cons, elem_of_nil.
    intros [?|[?|[?|[?|[?|[]]]]]]; discriminate.
  - intros ->. revert Hk. unfold carried_fields.
    rewrite !elem_of_cons, elem_of_nil.
    intros [?|[?|[?|[?|[?|[]]]]]]; discriminate.
Qed.
End CarriedFields.

Section CarriedFieldsSample.
#[local] Existing Instances Sample.conf Sample.identity Sample.catalog
  Sample.timeutils.

(** alice asks for a token on project p1 on top of an earlier token that
    carries a single observer role: the payload has that role and not the
    two she holds on p1. *)
Lemma carried_fields_kept_witness :
  let token : dict :=
    {[ "roles" := VList [VDict {[ "id" := VStr "observer" ]}] ]} in
  ∃ td,
    get_token_data (VStr "alice") (VList [VStr "password"]) VNone VNone
      (VStr "p1") VNone None (Some token)
    = Ok {[ "token" := VDict td ]}
    ∧ td !! "roles" = Some (VList [VDict {[ "id" := VStr "observer" ]}]).
Proof.
  intros token.
  pose (payload := Sample.returned
                     (get_token_data (VStr "alice") (VList [VStr "password"])
                        VNone VNone (VStr "p1") VNone None (Some token))).
  destruct carried_fields_kept as (_ & _ & _ & _ & _ & Hkept).
  destruct (Hkept (VStr "alice") (VList [VStr "password"]) VNone VNone
              (VStr "p1") VNone None token "roles"
              (VList [VDict {[ "id" := VStr "observer" ]}]) payload)
    as (td & Hpayload & Hroles).
  - left.
  - by_evaluation.
  - by_evaluation.
  - exists td. split; [|exact Hroles]. rewrite <- Hpayload. by_evaluation.
Defined.

(** C6, counterexample.  On top of an earlier token that carries a domain
    and both dates, a request on project p1 gets no project at all, and
    both dates are the ones of the new assembly, not the ones carried; the
    same at the level of the single steps. *)
Lemma scope_and_dates_not_kept :
  let token : dict :=
    {[ "domain" := VDict {[ "id" := VStr "default" ]};
       "issued_at" := VStr "2013-01-01T00:00:00.000000Z";
       "expires_at" := VStr "2013-01-01T01:00:00.000000Z" ]} in
  (∃ td,
     get_token_data (VStr "alice") (VList [VStr "password"]) VNone VNone
       (VStr "p1") VNone None (Some token)
     = Ok {[ "token" := VDict td ]}
     ∧ td !! "domain" = Some (VDict {[ "id" := VStr "default" ]})
     ∧ td !! "project" = None
     ∧ td !! "issued_at" = Some (VStr "2013-06-01T00:00:00.000000Z")
     ∧ td !! "expires_at" = Some (VStr "2013-06-01T01:00:00.000000Z"))
  ∧ _populate_scope token VNone (VStr "p1") = Ok token
  ∧ _populate_token_dates token VNone None
    = Ok (<["issued_at" := VStr "2013-06-01T00:00:00.000000Z"]>
            (<["expires_at" := VStr "2013-06-01T01:00:00.000000Z"]> token)).
Proof.
  intros token. split; [|split; by_evaluation].
  exists (Sample.returned
            (populate
               (initial_token_data (VList [VStr "password"]) VNone
                                   (Some token))
               (VStr "alice") VNone (VStr "p1") VNone None)).
  repeat split; by_evaluation.
Qed.
End CarriedFieldsSample.

(** ** Tokens the store does not have *)

Section NotFound.
Context `{CONF : Conf} `{identity_api : IdentityApi}
        `{catalog_api : CatalogApi} `{timeutils : TimeUtils}
        `{trust_api : TrustApi} `{token_provider : TokenProvider}
        {S : Type} `{token_api : TokenApi S}.

(** What [try: ... except exception.TokenNotFound as e: raise
    exception.Unauthorized(e)] lets through. *)
Lemma unauthorized_wrapper {A} (body : StoreM S A) (s : S) :
  try_except body is_TokenNotFound
    (λ e, lift (Raise (Unauthorized (exn_message e)))) s
  = match body s with
    | (Raise (TokenNotFound m), s') => (Raise (Unauthorized m), s')
    | r => r
    end.
Proof.
  unfold try_except, lift. destruct (body s) as [[a|e] s']; [done|].
  by destruct e.
Qed.

Lemma other_not_found_not_token e :
  is_other_not_found e = true → is_TokenNotFound e = false.
Proof. by destruct e. Qed.

(** The store has no record under a key whose record was deleted. *)
Hypothesis get_after_delete : ∀ k (s s' : S),
  delete_token k s = (Ok (), s') →
  ∃ m s'', get_token k s' = (Raise (TokenNotFound m), s'').

(** C7.  When the store answers the lookup of a validation or of a check
    with [TokenNotFound], the caller gets Unauthorized with the message of
    the not-found; no validation and no check ever raises [TokenNotFound];
    so validating a token that was revoked raises Unauthorized.  The
    not-found of a user, a project, a domain or a role in a validation, and
    of a trust in an issuance, comes out as it was raised. *)
Theorem token_not_found_is_unauthorized :
  (∀ token_id belongs_to (s s' : S) m,
     get_token token_id s = (Raise (TokenNotFound m), s') →
     validate_token token_id belongs_to V3 s = (Raise (Unauthorized m), s')
     ∧ check_token token_id belongs_to V3 s = (Raise (Unauthorized m), s'))
  ∧ (∀ token_id belongs_to version (s s' : S) e,
       validate_token token_id belongs_to version s = (Raise e, s')
       ∨ check_token token_id belongs_to version s = (Raise e, s') →
       is_TokenNotFound e = false)
  ∧ (∀ token_id belongs_to (s s' : S),
       revoke_token token_id s = (Ok (), s') →
       ∃ m s'',
         validate_token token_id belongs_to V3 s'
         = (Raise (Unauthorized m), s''))
  ∧ (∀ token_id belongs_to (s s' : S) e,
       _validate_v3_token token_id s = (Raise e, s') →
       is_other_not_found e = true →
       validate_token token_id belongs_to V3 s = (Raise e, s'))
  ∧ (∀ kwargs token_id (s : S) e,
       issue_trust kwargs = Raise e →
       issue_token V3 kwargs token_id s = (Raise e, s)).
Proof using get_after_delete.
  assert (∀ token_id belongs_to (s s' : S) m,
            get_token token_id s = (Raise (TokenNotFound m), s') →
            validate_token token_id belongs_to V3 s
            = (Raise (Unauthorized m), s')) as Hvalidate.
  { intros token_id belongs_to s s' m Hget. unfold validate_token.
    rewrite unauthorized_wrapper, bool_decide_eq_true_2 by done.
    unfold _validate_v3_token, _verify_token, mbind, store_bind.
    by rewrite Hget. }
  split; [|split; [|split; [|split]]].
  - intros token_id belongs_to s s' m Hget. split; [by apply Hvalidate|].
    unfold check_token.
    rewrite unauthorized_wrapper, bool_decide_eq_true_2 by done.
    unfold _verify_token, mbind, store_bind. by rewrite Hget.
  - intros token_id belongs_to version s s' e [H|H].
    + unfold validate_token in H. rewrite unauthorized_wrapper in H.
      destruct (_ s) as [[a|e'] s0]; [discriminate|].
      destruct e'; by injection H as <- <-.
    + unfold check_token in H. rewrite unauthorized_wrapper in H.
      destruct (_ s) as [[a|e'] s0]; [discriminate|].
      destruct e'; by injection H as <- <-.
  - intros token_id belongs_to s s' Hrevoke.
    destruct (get_after_delete _ _ _ Hrevoke) as (m & s'' & Hget).
    exists m, s''. by apply Hvalidate.
  - intros token_id belongs_to s s' e Hbody Hother. unfold validate_token.
    rewrite unauthorized_wrapper, bool_decide_eq_true_2 by done.
    rewrite Hbody. by destruct e.
  - intros kwargs token_id s e Htrust. unfold issue_token.
    rewrite bool_decide_eq_true_2 by done.
    unfold _issue_v3_token, mbind, store_bind, lift. by rewrite Htrust.
Qed.
End NotFound.

Section NotFoundSample.
#[local] Existing Instances Sample.conf Sample.identity Sample.catalog
  Sample.timeutils Sample.trusts Sample.provider Sample.store.

Lemma sample_store_get_after_delete k (s s' : gmap string dict) :
  delete_token k s = (Ok (), s') →
  ∃ m s'', get_token k s' = (Raise (TokenNotFound m), s'').
Proof.
  simpl. destruct (s !! k) eqn:Hk; [|discriminate].
  intros [= <-]. exists (Text k), (delete k s). by rewrite lookup_delete_eq.
Qed.

(** Validating an id the store never held is refused as unauthorized, and
    so is validating the id 4b1d once its record is revoked. *)
Lemma token_not_found_is_unauthorized_witness :
  validate_token "0000" None "v3.0" Sample.taken
  = (Raise (Unauthorized (Text "0000")), Sample.taken)
  ∧ ∃ m s' s'',
      revoke_token "4b1d" Sample.taken = (Ok (), s')
      ∧ validate_token "4b1d" None "v3.0" s' = (Raise (Unauthorized m), s'').
Proof.
  destruct (@token_not_found_is_unauthorized _ _ _ _ _ _ _ Sample.store
              sample_store_get_after_delete)
    as (Hmissing & _ & Hrevoked & _).
  split.
  - apply (Hmissing "0000" None Sample.taken Sample.taken (Text "0000")).
    by_evaluation.
  - destruct (Hrevoked "4b1d" None Sample.taken (delete "4b1d" Sample.taken))
      as (m & s'' & Hvalidate); [by_evaluation|].
    exists m, (delete "4b1d" Sample.taken), s''.
    split; [by_evaluation | exact Hvalidate].
Defined.
End NotFoundSample.

(** ** The methods and the extras pass through *)

Section MethodsExtras.
Context `{CONF : Conf} `{identity_api : IdentityApi}
        `{catalog_api : CatalogApi} `{timeutils : TimeUtils}.

(** The five steps leave the methods and the extras as they are. *)
Lemma populate_frame td u d p e trust td' k :
  populate td u d p e trust = Ok td' →
  k = "methods" ∨ k = "extras" → td' !! k = td !! k.
Proof.
  unfold populate. intros H Hk.
  exc_inv H as td1 Hscope. exc_inv H as td2 Huser. exc_inv H as td3 Hroles.
  exc_inv H as td4 Hcatalog.
  rewrite (_populate_token_dates_frame _ _ _ _ _ H)
    by (destruct Hk as [-> | ->]; done).
  rewrite (_populate_service_catalog_frame _ _ _ _ _ _ _ Hcatalog)
    by (destruct Hk as [-> | ->]; done).
  rewrite (_populate_roles_frame _ _ _ _ _ _ _ Hroles)
    by (destruct Hk as [-> | ->]; done).
  rewrite (_populate_user_frame _ _ _ _ _ _ _ Huser)
    by (destruct Hk as [-> | ->]; done).
  by rewrite (_populate_scope_frame _ _ _ _ _ Hscope)
    by (destruct Hk as [-> | ->]; done).
Qed.
End MethodsExtras.

(** ** The catalog of an unscoped token *)

Section Catalog.
Context `{CONF : Conf} `{identity_api : IdentityApi}
        `{catalog_api : CatalogApi} `{timeutils : TimeUtils}.

Lemma _populate_service_catalog_absent td u d p trust td' :
  _populate_service_catalog td u d p trust = Ok td' →
  td !! "catalog" = None →
  (is_Some (td' !! "catalog") ↔ truthy p || truthy d = true).
Proof.
  unfold _populate_service_catalog. intros H Habsent.
  rewrite (proj2 (dict_has_false _ _) Habsent) in H.
  destruct (truthy p || truthy d).
  - exc_inv H as cat Hcat. exc_simpl. rewrite lookup_insert_eq.
    split; [done | eauto].
  - exc_simpl. rewrite Habsent. split; [by intros [? ?] | done].
Qed.

(** C9 (as amended).  In an assembly in which the earlier token, if there
    is one, carries no catalog, the payload has a [catalog] field exactly
    when a project or a domain scope is requested: with neither scope the
    catalog step is skipped and the payload has no [catalog] field at
    all. *)
Theorem catalog_only_with_scope u m x d p e trust token payload :
  token ≫= (.!! "catalog") = None →
  get_token_data u m x d p e trust token = Ok payload →
  ∃ td, payload = {[ "token" := VDict td ]}
        ∧ (is_Some (td !! "catalog") ↔ truthy p || truthy d = true)
        ∧ (truthy p || truthy d = false → td !! "catalog" = None).
Proof.
  intros Hprior H. unfold get_token_data in H.
  exc_inv H as checked Hcheck. exc_inv H as td Htd. exc_simpl.
  exists td. split; [done|].
  unfold populate in Htd.
  exc_inv Htd as td1 Hscope. exc_inv Htd as td2 Huser.
  exc_inv Htd as td3 Hroles. exc_inv Htd as td4 Hcatalog.
  assert (td3 !! "catalog" = None) as Habsent.
  { rewrite (_populate_roles_frame _ _ _ _ _ _ _ Hroles) by done.
    rewrite (_populate_user_frame _ _ _ _ _ _ _ Huser) by done.
    rewrite (_populate_scope_frame _ _ _ _ _ Hscope) by done.
    rewrite initial_token_data_lookup by done. by repeat case_bool_decide. }
  pose proof (_populate_service_catalog_absent _ _ _ _ _ _ Hcatalog Habsent)
    as Hiff.
  rewrite (_populate_token_dates_frame _ _ _ _ _ Htd) by done.
  split; [exact Hiff|].
  intros Hnone. apply eq_None_not_Some. intros Hsome.
  apply Hiff in Hsome. congruence.
Qed.
End Catalog.

Section CatalogSample.
#[local] Existing Instances Sample.conf Sample.identity Sample.timeutils.

(** The payload of alice's token on project p1 has a catalog. *)
Lemma catalog_only_with_scope_witness :
  ∃ td,
    @get_token_data _ _ Sample.catalog _ (VStr "alice")
      (VList [VStr "password"]) VNone VNone (VStr "p1") VNone None None
    = Ok {[ "token" := VDict td ]}
    ∧ is_Some (td !! "catalog").
Proof.
  pose (payload :=
          Sample.returned
            (@get_token_data _ _ Sample.catalog _ (VStr "alice")
               (VList [VStr "password"]) VNone VNone (VStr "p1") VNone None
               None)).
  destruct (@catalog_only_with_scope _ _ Sample.catalog _ (VStr "alice")
              (VList [VStr "password"]) VNone VNone (VStr "p1") VNone None
              None payload)
    as (td & Hshape & Hiff & _).
  - reflexivity.
  - by_evaluation.
  - exists td. split; [|by apply Hiff]. rewrite <- Hshape. by_evaluation.
Defined.

(** C9, counterexample.  The payload of alice's unscoped token has no
    [catalog] field, so its catalog is not the empty mapping; and the
    payload of her token on project p1 has the empty mapping for catalog
    when the catalog backend has no V3 support, scope or not. *)
Lemma unscoped_payload_without_catalog :
  (∃ td,
     @get_token_data _ _ Sample.catalog _ (VStr "alice")
       (VList [VStr "password"]) VNone VNone VNone VNone None None
     = Ok {[ "token" := VDict td ]}
     ∧ td !! "catalog" = None
     ∧ td !! "catalog" ≠ Some (VDict ∅))
  ∧ (∃ td,
       @get_token_data _ _ Sample.no_catalog _ (VStr "alice")
         (VList [VStr "password"]) VNone VNone (VStr "p1") VNone None None
       = Ok {[ "token" := VDict td ]}
       ∧ td !! "catalog" = Some (VDict ∅)).
Proof.
  split.
  - exists (Sample.returned
              (@populate _ _ Sample.catalog _
                 (initial_token_data (VList [VStr "password"]) VNone None)
                 (VStr "alice") VNone VNone VNone None)).
    split; [by_evaluation|].
    assert (Sample.returned
              (@populate _ _ Sample.catalog _
                 (initial_token_data (VList [VStr "password"]) VNone None)
                 (VStr "alice") VNone VNone VNone None) !! "catalog" = None)
      as Hnone by by_evaluation.
    split; [exact Hnone|]. rewrite Hnone. discriminate.
  - exists (Sample.returned
              (@populate _ _ Sample.no_catalog _
                 (initial_token_data (VList [VStr "password"]) VNone None)
                 (VStr "alice") VNone (VStr "p1") VNone None)).
    split; by_evaluation.
Qed.
End CatalogSample.

(** ** The project a token belongs to *)

Section BelongsTo.
Context `{CONF : Conf} `{identity_api : IdentityApi}
        `{catalog_api : CatalogApi} `{timeutils : TimeUtils}
        `{token_provider : TokenProvider} {S : Type} `{token_api : TokenApi S}.

(** C10.  Whatever [belongs_to] a validation or a check is given, its
    outcome, payload or failure, and the state it leaves the store in are
    those of the same call without [belongs_to]; the constraint is enforced
    by [_verify_token] alone, which fails its assertion on a record whose
    tenant has another id. *)
Theorem belongs_to_ignored :
  (∀ token_id belongs_to version (s : S),
     validate_token token_id (Some belongs_to) version s
     = validate_token token_id None version s)
  ∧ (∀ token_id belongs_to version (s : S),
       check_token token_id (Some belongs_to) version s
       = check_token token_id None version s)
  ∧ (∀ token_id belongs_to (s s' : S) token_ref tenant tenant_id,
       get_token token_id s = (Ok token_ref, s') →
       truthy (VStr belongs_to) = true →
       token_ref !! "tenant" = Some tenant →
       py_getitem tenant "id" = Ok tenant_id →
       py_eq_str tenant_id belongs_to = false →
       _verify_token token_id (Some belongs_to) s = (Raise AssertionError, s')).
Proof.
  split; [done|]. split; [done|].
  intros token_id belongs_to s s' token_ref tenant tenant_id Hget Hgiven
    Htenant Hid Hother.
  assert (token_ref ≠ ∅) as Hne
    by (intros ->; by rewrite lookup_empty in Htenant).
  unfold _verify_token, mbind, store_bind, lift. rewrite Hget. simpl.
  rewrite (bool_decide_eq_false_2 _ Hne). simpl.
  simpl in Hgiven. rewrite Hgiven.
  unfold dict_getitem, py_getitem. rewrite Htenant. simpl.
  fold (py_getitem tenant "id"). rewrite Hid. simpl. by rewrite Hother.
Qed.
End BelongsTo.

Section BelongsToSample.
#[local] Existing Instances Sample.conf Sample.identity Sample.catalog
  Sample.timeutils Sample.provider Sample.store.

(** The record under 1e9a is for project p1: verifying it for project p2
    fails the assertion, while checking it for p2 passes and validating it
    for p2 yields a payload. *)
Lemma belongs_to_ignored_witness :
  _verify_token "1e9a" (Some "p2") Sample.legacy_store
  = (Raise AssertionError, Sample.legacy_store)
  ∧ check_token "1e9a" (Some "p2") "v3.0" Sample.legacy_store
    = (Ok (), Sample.legacy_store)
  ∧ ∃ payload,
      validate_token "1e9a" (Some "p2") "v3.0" Sample.legacy_store
      = (Ok payload, Sample.legacy_store).
Proof.
  destruct (@belongs_to_ignored _ _ _ _ Sample.provider _ Sample.store)
    as (Hvalidate & Hcheck & Hverify).
  split; [|split].
  - apply (Hverify "1e9a" "p2" Sample.legacy_store Sample.legacy_store
             Sample.legacy_record (VDict {[ "id" := VStr "p1" ]})
             (VStr "p1")); by_evaluation.
  - rewrite Hcheck. by_evaluation.
  - rewrite Hvalidate.
    exists (VDict
              (Sample.returned
                 (rebuild_token_data Sample.legacy_record))).
    by_evaluation.
Defined.
End BelongsToSample.

(** * Further properties of the assembler and the provider *)

(** ** What every payload has *)

Section Payload.
Context `{CONF : Conf} `{identity_api : IdentityApi}
        `{catalog_api : CatalogApi} `{timeutils : TimeUtils}.

Lemma get_token_data_inv u m x d p e trust token payload :
  get_token_data u m x d p e trust token = Ok payload →
  caller_is_trustee u trust
  ∧ ∃ td, payload = {[ "token" := VDict td ]}
          ∧ populate (initial_token_data m x token) u d p e trust = Ok td.
Proof.
  unfold get_token_data, caller_is_trustee. intros H.
  exc_inv H as checked Hcheck. exc_inv H as td Htd. exc_simpl.
  split; [|eauto].
  destruct (active_trust trust) as [t|]; [|done].
  by destruct (py_eq_str u (trustee_user_id t)).
Qed.

Lemma populate_inv td0 u d p e trust td :
  populate td0 u d p e trust = Ok td →
  ∃ td1 td2 td3 td4,
    _populate_scope td0 d p = Ok td1
    ∧ _populate_user td1 u d p trust = Ok td2
    ∧ _populate_roles td2 u d p trust = Ok td3
    ∧ _populate_service_catalog td3 u d p trust = Ok td4
    ∧ _populate_token_dates td4 e trust = Ok td.
Proof.
  unfold populate. intros H.
  exc_inv H as td1 Hscope. exc_inv H as td2 Huser. exc_inv H as td3 Hroles.
  exc_inv H as td4 Hcatalog. by exists td1, td2, td3, td4.
Qed.

Lemma initial_token_data_methods_extras m x token :
  initial_token_data m x token !! "methods" = Some m
  ∧ initial_token_data m x token !! "extras" = Some x.
Proof.
  unfold initial_token_data.
  assert (({[ "methods" := m; "extras" := x ]} : dict) !! "methods" = Some m
          ∧ ({[ "methods" := m; "extras" := x ]} : dict) !! "extras" = Some x)
    as [Hm Hx] by (split; by simplify_map_eq).
  destruct token as [token|]; [|done].
  destruct (truthy (VDict token)); [|done].
  rewrite !carry_over_lookup.
  rewrite !bool_decide_eq_false_2; [done|..];
    unfold carried_fields; rewrite !elem_of_cons, elem_of_nil;
    intros [?|[?|[?|[?|[?|[]]]]]]; discriminate.
Qed.

Lemma _populate_user_sets td u d p trust td' :
  _populate_user td u d p trust = Ok td' → is_Some (td' !! "user").
Proof.
  unfold _populate_user. intros H.
  destruct (dict_has td "user") eqn:Hhas.
  { exc_simpl. by apply dict_has_true. }
  exc_inv H as user_ref Huser. exc_inv H as [shown td1] Htrust.
  exc_inv H as dom Hdom. exc_simpl. rewrite lookup_insert_eq. eauto.
Qed.

Lemma _populate_token_dates_sets td e trust td' :
  _populate_token_dates td e trust = Ok td' →
  td' !! "issued_at" = Some (VStr isotime_now)
  ∧ ∃ expires_at, td' !! "expires_at" = Some (VStr expires_at).
Proof.
  unfold _populate_token_dates. intros H. exc_inv H as expires Hexpires.
  exc_simpl. split; [apply lookup_insert_eq|].
  rewrite lookup_insert_ne, lookup_insert_eq by done.
  destruct (negb (is_basestring _)) eqn:Hstr.
  - exc_inv Hexpires as formatted Hformatted. exc_simpl. eauto.
  - exc_simpl. apply negb_false_iff in Hstr.
    destruct (if negb (truthy e) then VTime default_expire_time else e);
      try discriminate. eauto.
Qed.

(** X1.  Every payload the assembler yields, with or without an earlier
    token, has under [token] the methods and the extras it was given, a
    user, the time of the assembly as [issued_at] and a string as
    [expires_at]. *)
Theorem payload_fields u m x d p e trust token payload :
  get_token_data u m x d p e trust token = Ok payload →
  ∃ td expires_at,
    payload = {[ "token" := VDict td ]}
    ∧ td !! "methods" = Some m
    ∧ td !! "extras" = Some x
    ∧ is_Some (td !! "user")
    ∧ td !! "issued_at" = Some (VStr isotime_now)
    ∧ td !! "expires_at" = Some (VStr expires_at).
Proof.
  intros H. apply get_token_data_inv in H as (_ & td & -> & Hpopulate).
  pose proof (initial_token_data_methods_extras m x token) as [Hm Hx].
  pose proof (populate_frame _ _ _ _ _ _ _ "methods" Hpopulate) as Hm'.
  pose proof (populate_frame _ _ _ _ _ _ _ "extras" Hpopulate) as Hx'.
  apply populate_inv in Hpopulate
    as (td1 & td2 & td3 & td4 & Hscope & Huser & Hroles & Hcat & Hdates).
  destruct (_populate_token_dates_sets _ _ _ _ Hdates)
    as (Hissued & expires_at & Hexpires).
  exists td, expires_at. split; [done|].
  split; [rewrite Hm' by auto; exact Hm|].
  split; [rewrite Hx' by auto; exact Hx|].
  split; [|done].
  rewrite (_populate_token_dates_frame _ _ _ _ _ Hdates) by done.
  rewrite (_populate_service_catalog_frame _ _ _ _ _ _ _ Hcat) by done.
  rewrite (_populate_roles_frame _ _ _ _ _ _ _ Hroles) by done.
  by eapply _populate_user_sets.
Qed.
End Payload.

Section PayloadSample.
#[local] Existing Instances Sample.conf Sample.identity Sample.catalog
  Sample.timeutils.

(** The payload of alice's token on project p1. *)
Lemma payload_fields_witness :
  ∃ td expires_at,
    get_token_data (VStr "alice") (VList [VStr "password"]) VNone VNone
      (VStr "p1") VNone None None
    = Ok {[ "token" := VDict td ]}
    ∧ td !! "methods" = Some (VList [VStr "password"])
    ∧ is_Some (td !! "user")
    ∧ td !! "issued_at" = Some (VStr "2013-06-01T00:00:00.000000Z")
    ∧ td !! "expires_at" = Some (VStr expires_at).
Proof.
  pose (payload :=
          Sample.returned
            (get_token_data (VStr "alice") (VList [VStr "password"]) VNone
               VNone (VStr "p1") VNone None None)).
  destruct (payload_fields (VStr "alice") (VList [VStr "password"]) VNone
              VNone (VStr "p1") VNone None None payload)
    as (td & expires_at & Hshape & Hm & _ & Hu & Hi & He); [by_evaluation|].
  exists td, expires_at. split; [rewrite <- Hshape; by_evaluation|].
  split; [exact Hm|]. split; [exact Hu|]. split; [exact Hi | exact He].
Defined.
End PayloadSample.

(** ** The version of a payload *)

Section Version.
Context `{CONF : Conf} `{identity_api : IdentityApi}
        `{catalog_api : CatalogApi} `{timeutils : TimeUtils}
        `{token_provider : TokenProvider}.

(** X2.  Every payload the assembler yields is told to be of version V3. *)
Theorem assembled_payload_is_v3 u m x d p e trust token payload :
  get_token_data u m x d p e trust token = Ok payload →
  get_token_version (VDict payload) = Ok V3.
Proof.
  intros H. apply get_token_data_inv in H as (_ & td & -> & Hpopulate).
  pose proof (populate_frame _ _ _ _ _ _ _ "methods" Hpopulate) as Hm.
  rewrite (proj1 (initial_token_data_methods_extras m x token)) in Hm.
  specialize (Hm (or_introl eq_refl)).
  unfold get_token_version. simpl.
  rewrite (bool_decide_eq_false_2 (_ = ∅)) by apply map_non_empty_singleton.
  simpl. unfold dict_has at 1.
  rewrite bool_decide_eq_false_2
    by (rewrite lookup_singleton_ne by done; by intros [? ?]).
  unfold dict_has at 1.
  rewrite bool_decide_eq_true_2 by (rewrite lookup_singleton_eq; eauto).
  unfold dict_getitem, py_getitem. rewrite lookup_singleton_eq. simpl.
  unfold dict_has. by rewrite bool_decide_eq_true_2 by (rewrite Hm; eauto).
Qed.

(** X3.  A dictionary with an [access] key is of version V2 whatever else
    it holds.  A value that is given a version is a dictionary, of version
    V2 when it has an [access] key and otherwise of version V3 with a
    [token] that has [methods].  A value that is no dictionary, the empty
    dictionary and a dictionary with neither [access] nor [token] raise
    [UnsupportedTokenVersionException]; for a dictionary without [access]
    and with a [token], the version is V3 when the token has [methods], the
    same exception is raised when it does not have them, and when the token
    cannot be searched at all, as [None] cannot, the [TypeError] of the
    membership test is raised instead. *)
Theorem get_token_version_cases :
  (∀ d : dict,
     is_Some (d !! "access") → get_token_version (VDict d) = Ok V2)
  ∧ (∀ v version,
       get_token_version v = Ok version →
       ∃ d : dict,
         v = VDict d
         ∧ ((is_Some (d !! "access") ∧ version = V2)
            ∨ (d !! "access" = None ∧ version = V3
               ∧ ∃ token, d !! "token" = Some token
                          ∧ py_contains "methods" token = Ok true)))
  ∧ (∀ v,
       (∀ d : dict,
          v = VDict d →
          d = ∅ ∨ (d !! "access" = None ∧ d !! "token" = None)) →
       get_token_version v = Raise UnsupportedTokenVersionException)
  ∧ (∀ (d : dict) token,
       d !! "access" = None → d !! "token" = Some token →
       (py_contains "methods" token = Ok true →
        get_token_version (VDict d) = Ok V3)
       ∧ (py_contains "methods" token = Ok false →
          get_token_version (VDict d)
          = Raise UnsupportedTokenVersionException)
       ∧ (∀ e, py_contains "methods" token = Raise e →
               e = TypeError
               ∧ get_token_version (VDict d) = Raise TypeError)).
Proof.
  split; [|split; [|split]].
  - intros d Haccess. unfold get_token_version. simpl.
    rewrite (bool_decide_eq_false_2 (d = ∅))
      by (intros ->; rewrite lookup_empty in Haccess; by destruct Haccess).
    simpl. by rewrite (proj2 (dict_has_true _ _) Haccess).
  - intros v version H. unfold get_token_version in H.
    destruct v as [| | | | |d]; try discriminate. exists d. split; [done|].
    destruct (truthy (VDict d)); [|discriminate].
    destruct (dict_has d "access") eqn:Haccess.
    { exc_simpl. left. by apply dict_has_true in Haccess. }
    right. apply dict_has_false in Haccess. split; [done|].
    exc_inv H as is_v3 Hv3. destruct is_v3; [|discriminate]. exc_simpl.
    split; [done|].
    destruct (dict_has d "token"); [|discriminate].
    exc_inv Hv3 as token Htoken. exists token. split; [|done].
    unfold dict_getitem, py_getitem in Htoken.
    destruct (d !! "token"); [by exc_simpl | discriminate].
  - intros v Hshape. unfold get_token_version.
    destruct v as [| | | | |d]; try done.
    destruct (Hshape d eq_refl) as [-> | [Haccess Htoken]]; [done|].
    destruct (truthy (VDict d)); [|done].
    rewrite (proj2 (dict_has_false _ _) Haccess).
    by rewrite (proj2 (dict_has_false _ _) Htoken).
  - intros d token Haccess Htoken.
    assert (get_token_version (VDict d)
            = is_v3 ← py_contains "methods" token;
              if is_v3 : bool then mret V3
              else Raise UnsupportedTokenVersionException) as Hversion.
    { unfold get_token_version. simpl.
      rewrite (bool_decide_eq_false_2 (d = ∅))
        by (intros ->; by rewrite lookup_empty in Htoken).
      simpl. rewrite (proj2 (dict_has_false _ _) Haccess).
      rewrite (proj2 (dict_has_true _ _)) by (rewrite Htoken; eauto).
      unfold dict_getitem, py_getitem. by rewrite Htoken. }
    split; [|split].
    + intros Hin. by rewrite Hversion, Hin.
    + intros Hin. by rewrite Hversion, Hin.
    + intros e Hin. rewrite Hversion, Hin.
      destruct token; simpl in Hin; by inversion Hin.
Qed.
End Version.

Section VersionSample.
#[local] Existing Instances Sample.conf Sample.identity Sample.catalog
  Sample.timeutils Sample.provider.

Lemma assembled_payload_is_v3_witness :
  get_token_version
    (VDict (Sample.returned
              (get_token_data (VStr "alice") (VList [VStr "password"]) VNone
                 VNone (VStr "p1") VNone None None)))
  = Ok "v3.0".
Proof.
  pose (payload :=
          Sample.returned
            (get_token_data (VStr "alice") (VList [VStr "password"]) VNone
               VNone (VStr "p1") VNone None None)).
  change (get_token_version (VDict payload) = Ok V3).
  apply (assembled_payload_is_v3 (VStr "alice") (VList [VStr "password"])
           VNone VNone (VStr "p1") VNone None None payload).
  by_evaluation.
Defined.

(** A V2 payload that also carries a [token] is of version V2; the empty
    dictionary has no version; and a payload whose [token] is [None] fails
    the membership test. *)
Lemma get_token_version_cases_witness :
  get_token_version
    (VDict {[ "access" := VDict ∅;
              "token" := VDict {[ "methods" := VList [] ]} ]})
  = Ok "v2.0"
  ∧ get_token_version (VDict ∅) = Raise UnsupportedTokenVersionException
  ∧ get_token_version (VDict {[ "token" := VNone ]}) = Raise TypeError.
Proof.
  destruct (@get_token_version_cases Sample.provider)
    as (Haccess & _ & Hnone & Htoken).
  split; [|split].
  - apply Haccess. exists (VDict ∅). by_evaluation.
  - apply Hnone. intros d [= <-]. by left.
  - destruct (Htoken {[ "token" := VNone ]} VNone) as (_ & _ & Hraise);
      [by_evaluation | by_evaluation |].
    by destruct (Hraise TypeError eq_refl).
Defined.
End VersionSample.

(** ** The caller of a trust *)

Section Trustee.
Context `{CONF : Conf} `{identity_api : IdentityApi}
        `{catalog_api : CatalogApi} `{timeutils : TimeUtils}
        `{trust_api : TrustApi} `{token_provider : TokenProvider}
        {S : Type} `{token_api : TokenApi S}.

(** X4.  Under an active trust a caller other than the trustee is refused
    with Forbidden "User is not a trustee.", whatever the scope, the earlier
    token and the directory are; an issuance for such a caller raises the
    same and leaves the store as it was. *)
Theorem non_trustee_denied :
  (∀ u m x d p e trust token t,
     active_trust trust = Some t →
     py_eq_str u (trustee_user_id t) = false →
     get_token_data u m x d p e trust token
     = Raise (Forbidden (Text "User is not a trustee.")))
  ∧ (∀ kwargs token_id (s : S) trust t,
       issue_trust kwargs = Ok trust →
       active_trust trust = Some t →
       py_eq_str (kw_user_id kwargs) (trustee_user_id t) = false →
       issue_token V3 kwargs token_id s
       = (Raise (Forbidden (Text "User is not a trustee.")), s)).
Proof.
  assert (∀ u m x d p e trust token t,
            active_trust trust = Some t →
            py_eq_str u (trustee_user_id t) = false →
            get_token_data u m x d p e trust token
            = Raise (Forbidden (Text "User is not a trustee."))) as Hdata.
  { intros u m x d p e trust token t Ht Hother. unfold get_token_data.
    by rewrite Ht, Hother. }
  split; [exact Hdata|].
  intros kwargs token_id s trust t Htrust Ht Hother. unfold issue_token.
  rewrite bool_decide_eq_true_2 by done.
  apply (issue_assembly_fails _ _ _ trust); [done|]. by eapply Hdata.
Qed.
End Trustee.

Section TrusteeSample.
#[local] Existing Instances Sample.conf Sample.identity Sample.catalog
  Sample.timeutils Sample.trusts Sample.provider Sample.store.

(** alice herself cannot use the trust she gave to bob. *)
Lemma non_trustee_denied_witness :
  issue_token "v3.0"
    (Sample.request "alice" (VStr "p1") (Some (Sample.trust_with ["admin"])))
    "4b1d" ∅
  = (Raise (Forbidden (Text "User is not a trustee.")), ∅).
Proof.
  destruct (@non_trustee_denied _ _ _ _ _ _ _ Sample.store) as [_ Hissue].
  apply (Hissue (Sample.request "alice" (VStr "p1")
                   (Some (Sample.trust_with ["admin"])))
           "4b1d" (∅ : gmap string dict)
           (Some (Sample.trust_with ["admin"])) (Sample.trust_with ["admin"]));
    reflexivity.
Defined.
End TrusteeSample.

(** ** The user and the scope of a payload *)

Section UserAndScope.
Context `{CONF : Conf} `{identity_api : IdentityApi}
        `{catalog_api : CatalogApi} `{timeutils : TimeUtils}.

Lemma not_carried_trust_block : "OS-TRUST:trust" ∉ carried_fields.
Proof.
  unfold carried_fields. rewrite !elem_of_cons, elem_of_nil.
  intros [?|[?|[?|[?|[?|[]]]]]]; discriminate.
Qed.

(** What the token data holds for a carried field before the user step. *)
Lemma before_user_step m x token d p td1 k :
  _populate_scope (initial_token_data m x token) d p = Ok td1 →
  k ≠ "methods" → k ≠ "extras" → k ≠ "domain" → k ≠ "project" →
  td1 !! k = if bool_decide (k ∈ carried_fields) then token ≫= (.!! k)
             else None.
Proof.
  intros Hscope Hm Hx Hd Hp.
  rewrite (_populate_scope_frame _ _ _ _ _ Hscope) by done.
  by apply initial_token_data_lookup.
Qed.

(** X5.  Under an active trust, when the earlier token carries no user, the
    user of the payload is the filtered trustor when the trust impersonates
    and the filtered caller otherwise, the trustor is enabled, and the
    payload carries the trust block with the ids of the trust, of the
    trustor and of the trustee and the impersonation flag. *)
Theorem trust_payload_user u m x d p e trust t token payload caller trustor :
  active_trust trust = Some t →
  token ≫= (.!! "user") = None →
  get_user u = Ok caller →
  get_user (VStr (trustor_user_id t)) = Ok trustor →
  get_token_data u m x d p e trust token = Ok payload →
  let shown := if impersonation t then trustor else caller in
  ∃ td domain,
    payload = {[ "token" := VDict td ]}
    ∧ user_ref_enabled trustor = true
    ∧ _get_filtered_domain (VStr (user_ref_domain_id shown)) = Ok domain
    ∧ td !! "user"
      = Some (VDict {[ "id" := VStr (user_ref_id shown);
                       "name" := VStr (user_ref_name shown);
                       "domain" := VDict domain ]})
    ∧ td !! "OS-TRUST:trust"
      = Some (VDict {[ "id" := VStr (trust_id t);
                       "trustor_user" :=
                         VDict {[ "id" := VStr (trustor_user_id t) ]};
                       "trustee_user" :=
                         VDict {[ "id" := VStr (trustee_user_id t) ]};
                       "impersonation" := VBool (impersonation t) ]}).
Proof.
  intros Ht Hnouser Hcaller Htrustor H shown.
  apply get_token_data_inv in H as (_ & td & -> & Hpopulate).
  apply populate_inv in Hpopulate
    as (td1 & td2 & td3 & td4 & Hscope & Huser & Hroles & Hcat & Hdates).
  assert (td1 !! "user" = None) as Hu.
  { rewrite (before_user_step _ _ _ _ _ _ _ Hscope) by done.
    by repeat case_bool_decide. }
  assert (td1 !! "OS-TRUST:trust" = None) as Hb.
  { rewrite (before_user_step _ _ _ _ _ _ _ Hscope) by done.
    by rewrite bool_decide_eq_false_2 by apply not_carried_trust_block. }
  apply dict_has_false in Hu, Hb.
  unfold _populate_user in Huser.
  rewrite Hu, Hcaller, Ht, Hb in Huser. simpl in Huser.
  rewrite Htrustor in Huser. simpl in Huser.
  destruct (user_ref_enabled trustor) eqn:Henabled; [|discriminate].
  simpl in Huser. fold shown in Huser.
  exc_inv Huser as domain Hdomain. exc_simpl.
  exists td, domain. split; [done|]. split; [done|]. split; [done|].
  rewrite !(_populate_token_dates_frame _ _ _ _ _ Hdates) by done.
  rewrite !(_populate_service_catalog_frame _ _ _ _ _ _ _ Hcat) by done.
  rewrite !(_populate_roles_frame _ _ _ _ _ _ _ Hroles) by done.
  split; [apply lookup_insert_eq|].
  rewrite lookup_insert_ne by done. apply lookup_insert_eq.
Qed.

(** X6.  When the earlier token carries neither a domain nor a project, the
    payload has a project exactly when a project is asked for, and it is
    the id and the name of that project with, nested, the id and the name of
    the domain that owns the project; and it has a domain exactly when a
    domain is asked for, the id and the name of that domain. *)
Theorem payload_scope u m x d p e trust token payload :
  token ≫= (.!! "domain") = None →
  token ≫= (.!! "project") = None →
  get_token_data u m x d p e trust token = Ok payload →
  ∃ td,
    payload = {[ "token" := VDict td ]}
    ∧ (if truthy p then
         ∃ project owner,
           get_project p = Ok project
           ∧ get_domain (VStr (project_ref_domain_id project)) = Ok owner
           ∧ td !! "project"
             = Some (VDict
                       (<["domain" :=
                            VDict {[ "id" := VStr (domain_ref_id owner);
                                     "name" := VStr (domain_ref_name owner) ]}
                        ]> {[ "id" := VStr (project_ref_id project);
                              "name" := VStr (project_ref_name project) ]}))
       else td !! "project" = None)
    ∧ (if truthy d then
         ∃ domain,
           get_domain d = Ok domain
           ∧ td !! "domain"
             = Some (VDict {[ "id" := VStr (domain_ref_id domain);
                              "name" := VStr (domain_ref_name domain) ]})
       else td !! "domain" = None).
Proof.
  intros Hnodomain Hnoproject H.
  apply get_token_data_inv in H as (_ & td & -> & Hpopulate).
  apply populate_inv in Hpopulate
    as (td1 & td2 & td3 & td4 & Hscope & Huser & Hroles & Hcat & Hdates).
  exists td. split; [done|].
  rewrite !(_populate_token_dates_frame _ _ _ _ _ Hdates) by done.
  rewrite !(_populate_service_catalog_frame _ _ _ _ _ _ _ Hcat) by done.
  rewrite !(_populate_roles_frame _ _ _ _ _ _ _ Hroles) by done.
  rewrite !(_populate_user_frame _ _ _ _ _ _ _ Huser) by done.
  assert (initial_token_data m x token !! "domain" = None) as Hd0.
  { rewrite initial_token_data_lookup by done. by repeat case_bool_decide. }
  assert (initial_token_data m x token !! "project" = None) as Hp0.
  { rewrite initial_token_data_lookup by done. by repeat case_bool_decide. }
  unfold _populate_scope in Hscope.
  rewrite (proj2 (dict_has_false _ _) Hd0),
    (proj2 (dict_has_false _ _) Hp0) in Hscope. simpl in Hscope.
  exc_inv Hscope as td0 Hdomain.
  assert ((if truthy d then
             ∃ domain,
               get_domain d = Ok domain
               ∧ td0 !! "domain"
                 = Some (VDict {[ "id" := VStr (domain_ref_id domain);
                                  "name" := VStr (domain_ref_name domain) ]})
           else td0 !! "domain" = None)
          ∧ td0 !! "project" = None) as [Hd1 Hp1].
  { destruct (truthy d).
    - exc_inv Hdomain as filtered Hfiltered. exc_simpl.
      unfold _get_filtered_domain in Hfiltered.
      exc_inv Hfiltered as domain Hget. exc_simpl.
      split; [|by rewrite lookup_insert_ne].
      exists domain. split; [done|]. apply lookup_insert_eq.
    - by exc_simpl. }
  destruct (truthy p).
  - exc_inv Hscope as filtered Hfiltered. exc_simpl.
    unfold _get_filtered_project in Hfiltered.
    exc_inv Hfiltered as project Hget. exc_inv Hfiltered as owner Howner.
    exc_simpl. unfold _get_filtered_domain in Howner.
    exc_inv Howner as owner_ref Hgetd. exc_simpl.
    split.
    + exists project, owner_ref. split; [done|]. split; [done|].
      apply lookup_insert_eq.
    + destruct (truthy d); [|by rewrite lookup_insert_ne].
      destruct Hd1 as (domain & Hg & Hl). exists domain.
      split; [done|]. by rewrite lookup_insert_ne.
  - exc_simpl. by split.
Qed.
End UserAndScope.

Section UserAndScopeSample.
#[local] Existing Instances Sample.conf Sample.identity Sample.catalog
  Sample.timeutils.

(** Under the impersonating trust the payload of bob shows alice. *)
Lemma trust_payload_user_witness :
  ∃ td,
    get_token_data (VStr "bob") (VList [VStr "password"]) VNone VNone
      (VStr "p1") VNone (Some Sample.trust_impersonating) None
    = Ok {[ "token" := VDict td ]}
    ∧ td !! "user"
      = Some (VDict {[ "id" := VStr "alice"; "name" := VStr "Alice";
                       "domain" := VDict {[ "id" := VStr "default";
                                            "name" := VStr "Default" ]} ]}).
Proof.
  pose (payload :=
          Sample.returned
            (get_token_data (VStr "bob") (VList [VStr "password"]) VNone
               VNone (VStr "p1") VNone (Some Sample.trust_impersonating)
               None)).
  destruct (trust_payload_user (VStr "bob") (VList [VStr "password"]) VNone
              VNone (VStr "p1") VNone (Some Sample.trust_impersonating)
              Sample.trust_impersonating None payload
              {| user_ref_id := "bob"; user_ref_name := "Bob";
                 user_ref_domain_id := "default"; user_ref_enabled := true |}
              {| user_ref_id := "alice"; user_ref_name := "Alice";
                 user_ref_domain_id := "default"; user_ref_enabled := true |})
    as (td & domain & Hshape & _ & Hdomain & Huser & _).
  - reflexivity.
  - reflexivity.
  - reflexivity.
  - reflexivity.
  - by_evaluation.
  - exists td. split; [rewrite <- Hshape; by_evaluation|].
    rewrite Huser. simpl in Hdomain. injection Hdomain as <-. reflexivity.
Defined.

(** The payload of alice's token on project p1 has the project with its
    domain and no domain of its own. *)
Lemma payload_scope_witness :
  ∃ td,
    get_token_data (VStr "alice") (VList [VStr "password"]) VNone VNone
      (VStr "p1") VNone None None
    = Ok {[ "token" := VDict td ]}
    ∧ td !! "domain" = None
    ∧ is_Some (td !! "project").
Proof.
  pose (payload :=
          Sample.returned
            (get_token_data (VStr "alice") (VList [VStr "password"]) VNone
               VNone (VStr "p1") VNone None None)).
  destruct (payload_scope (VStr "alice") (VList [VStr "password"]) VNone
              VNone (VStr "p1") VNone None None payload)
    as (td & Hshape & Hproject & Hdomain).
  - reflexivity.
  - reflexivity.
  - by_evaluation.
  - exists td. split; [rewrite <- Hshape; by_evaluation|].
    split; [exact Hdomain|].
    destruct Hproject as (project & owner & _ & _ & ->). eauto.
Defined.
End UserAndScopeSample.

(** ** The roles of a payload *)

Section Roles.
Context `{CONF : Conf} `{identity_api : IdentityApi}
        `{catalog_api : CatalogApi} `{timeutils : TimeUtils}.

Lemma exc_map_Forall2 {A B} (f : A → Exc B) (l : list A) (l' : list B) :
  exc_map f l = Ok l' → Forall2 (λ a b, f a = Ok b) l l'.
Proof.
  revert l'. induction l as [|a l IH]; intros l' H; simpl in H.
  { exc_simpl. constructor. }
  exc_inv H as b Hb. exc_inv H as bs Hbs. exc_simpl.
  constructor; [done | by apply IH].
Qed.

(** The roles looked up for a user: those of the project when a project is
    given, otherwise those of the domain, otherwise none. *)
Lemma _get_roles_for_user_inv u d p roles :
  _get_roles_for_user u d p = Ok roles →
  ∃ ids,
    (if truthy p then get_roles_for_user_and_project u p
     else if truthy d then get_roles_for_user_and_domain u d
          else Ok []) = Ok ids
    ∧ Forall2 (λ id r, get_role id = Ok r) ids roles.
Proof.
  unfold _get_roles_for_user. intros H.
  exc_inv H as ids0 Hdomain. exc_inv H as ids Hproject.
  exists ids. split; [|by apply exc_map_Forall2].
  destruct (truthy p); [done|]. exc_simpl.
  by destruct (truthy d).
Qed.

(** The roles step on token data without roles. *)
Lemma _populate_roles_absent td u d p trust tu tp tdm td' :
  td !! "roles" = None →
  token_scope u d p trust = (tu, tp, tdm) →
  _populate_roles td u d p trust = Ok td' →
  if truthy tdm || truthy tp then
    ∃ roles filtered,
      _get_roles_for_user tu tdm tp = Ok roles
      ∧ filtered_roles_of trust roles = Ok filtered
      ∧ filtered ≠ []
      ∧ td' = <["roles" := VList filtered]> td
  else td' = td.
Proof.
  intros Habsent Hts H. unfold _populate_roles in H.
  rewrite (proj2 (dict_has_false _ _) Habsent), Hts in H.
  destruct (truthy tdm || truthy tp); [|by exc_simpl].
  exc_inv H as roles Hroles. exc_inv H as filtered Hfiltered.
  simpl in H. destruct (bool_decide (filtered = [])) eqn:Hempty;
    [discriminate|].
  simpl in H. exc_simpl. apply bool_decide_eq_false in Hempty.
  by exists roles, filtered.
Qed.

Lemma before_roles_step m x token u d p trust td1 td2 :
  token ≫= (.!! "roles") = None →
  _populate_scope (initial_token_data m x token) d p = Ok td1 →
  _populate_user td1 u d p trust = Ok td2 →
  td2 !! "roles" = None.
Proof.
  intros Hnoroles Hscope Huser.
  rewrite (_populate_user_frame _ _ _ _ _ _ _ Huser) by done.
  rewrite (before_user_step _ _ _ _ _ _ _ Hscope) by done.
  by repeat case_bool_decide.
Qed.

(** X7.  When the earlier token carries no roles, the payload has roles
    exactly when a scope is in effect for the role lookup (under an active
    trust the project of the trust, otherwise the requested domain or
    project), and then they are a list that is not empty: no payload has an
    empty list of roles. *)
Theorem payload_roles_not_empty u m x d p e trust token payload tu tp tdm :
  token ≫= (.!! "roles") = None →
  token_scope u d p trust = (tu, tp, tdm) →
  get_token_data u m x d p e trust token = Ok payload →
  ∃ td,
    payload = {[ "token" := VDict td ]}
    ∧ if truthy tdm || truthy tp then
        ∃ filtered, td !! "roles" = Some (VList filtered) ∧ filtered ≠ []
      else td !! "roles" = None.
Proof.
  intros Hnoroles Hts H.
  apply get_token_data_inv in H as (_ & td & -> & Hpopulate).
  apply populate_inv in Hpopulate
    as (td1 & td2 & td3 & td4 & Hscope & Huser & Hroles & Hcat & Hdates).
  pose proof (before_roles_step _ _ _ _ _ _ _ _ _ Hnoroles Hscope Huser)
    as Habsent.
  pose proof (_populate_roles_absent _ _ _ _ _ _ _ _ _ Habsent Hts Hroles)
    as Hstep.
  exists td. split; [done|].
  rewrite (_populate_token_dates_frame _ _ _ _ _ Hdates) by done.
  rewrite (_populate_service_catalog_frame _ _ _ _ _ _ _ Hcat) by done.
  destruct (truthy tdm || truthy tp).
  - destruct Hstep as (roles & filtered & _ & _ & Hne & ->).
    exists filtered. split; [apply lookup_insert_eq | done].
  - by subst td3.
Qed.

(** X8.  Without an active trust and with a scope, when the earlier token
    carries no roles, the roles of the payload are the roles the directory
    lists for the user on the project, or on the domain when no project is
    asked for, each looked up by its id and cut down to its id and name, in
    the order of the directory. *)
Theorem payload_roles_without_trust u m x d p e trust token payload :
  active_trust trust = None →
  token ≫= (.!! "roles") = None →
  truthy d || truthy p = true →
  get_token_data u m x d p e trust token = Ok payload →
  ∃ td ids roles,
    payload = {[ "token" := VDict td ]}
    ∧ (if truthy p then get_roles_for_user_and_project u p
       else get_roles_for_user_and_domain u d) = Ok ids
    ∧ Forall2 (λ id r, get_role id = Ok r) ids roles
    ∧ td !! "roles"
      = Some (VList ((λ r, VDict {[ "id" := VStr (role_id r);
                                    "name" := VStr (role_name r) ]})
                       <$> roles)).
Proof.
  intros Hnotrust Hnoroles Hscoped H.
  apply get_token_data_inv in H as (_ & td & -> & Hpopulate).
  apply populate_inv in Hpopulate
    as (td1 & td2 & td3 & td4 & Hscope & Huser & Hroles & Hcat & Hdates).
  pose proof (before_roles_step _ _ _ _ _ _ _ _ _ Hnoroles Hscope Huser)
    as Habsent.
  assert (token_scope u d p trust = (u, p, d)) as Hts
    by (unfold token_scope; by rewrite Hnotrust).
  pose proof (_populate_roles_absent _ _ _ _ _ _ _ _ _ Habsent Hts Hroles)
    as Hstep.
  rewrite Hscoped in Hstep.
  destruct Hstep as (roles & filtered & Hlookup & Hfiltered & _ & ->).
  unfold filtered_roles_of in Hfiltered. rewrite Hnotrust in Hfiltered.
  exc_simpl.
  apply _get_roles_for_user_inv in Hlookup as (ids & Hids & Hall).
  exists td, ids, roles. split; [done|]. split.
  { destruct (truthy p); [done|]. simpl in Hscoped.
    rewrite orb_false_r in Hscoped. by rewrite Hscoped in Hids. }
  split; [done|].
  rewrite (_populate_token_dates_frame _ _ _ _ _ Hdates) by done.
  rewrite (_populate_service_catalog_frame _ _ _ _ _ _ _ Hcat) by done.
  apply lookup_insert_eq.
Qed.
End Roles.

Section RolesSample.
#[local] Existing Instances Sample.conf Sample.identity Sample.catalog
  Sample.timeutils.

(** The roles of alice's payload on project p1: admin and member, without
    the description the directory keeps for admin. *)
Lemma payload_roles_without_trust_witness :
  ∃ td,
    get_token_data (VStr "alice") (VList [VStr "password"]) VNone VNone
      (VStr "p1") VNone None None
    = Ok {[ "token" := VDict td ]}
    ∧ td !! "roles"
      = Some (VList [VDict {[ "id" := VStr "admin"; "name" := VStr "Admin" ]};
                     VDict {[ "id" := VStr "member";
                              "name" := VStr "Member" ]}]).
Proof.
  pose (payload :=
          Sample.returned
            (get_token_data (VStr "alice") (VList [VStr "password"]) VNone
               VNone (VStr "p1") VNone None None)).
  destruct (payload_roles_without_trust (VStr "alice")
              (VList [VStr "password"]) VNone VNone (VStr "p1") VNone None
              None payload)
    as (td & ids & roles & Hshape & Hids & Hall & Hroles).
  - reflexivity.
  - reflexivity.
  - reflexivity.
  - by_evaluation.
  - exists td. split; [rewrite <- Hshape; by_evaluation|].
    rewrite Hroles. simpl in Hids. injection Hids as <-.
    apply Forall2_cons_inv_l in Hall as (r1 & l1 & Hr1 & Hall & ->).
    apply Forall2_cons_inv_l in Hall as (r2 & l2 & Hr2 & Hall & ->).
    apply Forall2_nil_inv_l in Hall as ->.
    simpl in Hr1, Hr2. injection Hr1 as <-. injection Hr2 as <-.
    reflexivity.
Defined.

(** The payload of alice's unscoped token has no roles. *)
Lemma payload_roles_not_empty_witness :
  ∃ td,
    get_token_data (VStr "alice") (VList [VStr "password"]) VNone VNone
      VNone VNone None None
    = Ok {[ "token" := VDict td ]}
    ∧ td !! "roles" = None.
Proof.
  pose (payload :=
          Sample.returned
            (get_token_data (VStr "alice") (VList [VStr "password"]) VNone
               VNone VNone VNone None None)).
  destruct (payload_roles_not_empty (VStr "alice") (VList [VStr "password"])
              VNone VNone VNone VNone None None payload (VStr "alice") VNone
              VNone)
    as (td & Hshape & Hroles).
  - reflexivity.
  - reflexivity.
  - by_evaluation.
  - exists td. split; [rewrite <- Hshape; by_evaluation | exact Hroles].
Defined.
End RolesSample.

(** ** The backends an assembly depends on *)

Section AllPresent.
Context `{CONF : Conf} `{identity_api : IdentityApi}
        `{catalog_api : CatalogApi} `{timeutils : TimeUtils}.

(** The steps before the dates do nothing on token data that has a scope
    field, a user, roles and a catalog. *)
Lemma populate_all_present td u d p e trust :
  is_Some (td !! "domain") ∨ is_Some (td !! "project") →
  is_Some (td !! "user") → is_Some (td !! "roles") →
  is_Some (td !! "catalog") →
  populate td u d p e trust = _populate_token_dates td e trust.
Proof.
  intros Hscope Huser Hroles Hcatalog. unfold populate.
  rewrite _populate_scope_present by done. simpl.
  rewrite _populate_user_present by done. simpl.
  rewrite _populate_roles_present by done. simpl.
  by rewrite _populate_service_catalog_present by done.
Qed.
End AllPresent.

Section Backends.
Context `{CONF : Conf} `{identity_api : IdentityApi} `{timeutils : TimeUtils}.

(** X9.  A catalog backend without V3 support, which answers every request
    with NotImplemented, gives the same assemblies, payload or failure, as a
    backend whose catalog is always the empty mapping. *)
Theorem catalog_not_implemented_is_empty (unsupported empty : CatalogApi)
    u m x d p e trust token :
  (∀ user_id project_id,
     @get_v3_catalog unsupported user_id project_id = Raise NotImplemented) →
  (∀ user_id project_id,
     @get_v3_catalog empty user_id project_id = Ok (VDict ∅)) →
  @get_token_data CONF identity_api unsupported timeutils
    u m x d p e trust token
  = @get_token_data CONF identity_api empty timeutils
      u m x d p e trust token.
Proof.
  intros Hunsupported Hempty.
  assert (∀ td, @_populate_service_catalog CONF unsupported td u d p trust
                = @_populate_service_catalog CONF empty td u d p trust)
    as Hstep.
  { intros td. unfold _populate_service_catalog.
    by rewrite Hunsupported, Hempty. }
  unfold get_token_data, populate.
  destruct (match active_trust trust with Some _ => _ | None => _ end)
    as [[]|err]; [simpl|done].
  destruct (_populate_scope _ d p) as [td1|err]; [simpl|done].
  destruct (_populate_user td1 u d p trust) as [td2|err]; [simpl|done].
  destruct (_populate_roles td2 u d p trust) as [td3|err]; [simpl|done].
  by rewrite Hstep.
Qed.

(** X10.  On top of an earlier token that carries a domain or a project, a
    user, roles and a catalog, an assembly asks the directory and the
    catalog nothing: its outcome is the same whatever these two backends
    are. *)
Theorem carried_token_needs_no_backend (catalog_api : CatalogApi)
    (identity_api' : IdentityApi) (catalog_api' : CatalogApi)
    u m x d p e trust (token : dict) :
  is_Some (token !! "domain") ∨ is_Some (token !! "project") →
  is_Some (token !! "user") → is_Some (token !! "roles") →
  is_Some (token !! "catalog") →
  @get_token_data CONF identity_api catalog_api timeutils
    u m x d p e trust (Some token)
  = @get_token_data CONF identity_api' catalog_api' timeutils
      u m x d p e trust (Some token).
Proof.
  intros Hscope Huser Hroles Hcatalog.
  assert (∀ k, k ∈ carried_fields → is_Some (token !! k) →
               is_Some (initial_token_data m x (Some token) !! k)) as Hinit.
  { intros k Hk Hsome.
    rewrite initial_token_data_lookup.
    - by rewrite bool_decide_eq_true_2.
    - intros ->. revert Hk. unfold carried_fields.
      rewrite !elem_of_cons, elem_of_nil.
      intros [?|[?|[?|[?|[?|[]]]]]]; discriminate.
    - intros ->. revert Hk. unfold carried_fields.
      rewrite !elem_of_cons, elem_of_nil.
      intros [?|[?|[?|[?|[?|[]]]]]]; discriminate. }
  assert (is_Some (initial_token_data m x (Some token) !! "domain")
          ∨ is_Some (initial_token_data m x (Some token) !! "project"))
    as Hscope'.
  { destruct Hscope as [Hd|Hp]; [left | right]; (apply Hinit; [|done]);
      unfold carried_fields; rewrite !elem_of_cons; tauto. }
  assert (is_Some (initial_token_data m x (Some token) !! "user")) as Huser'
    by (apply Hinit; [|done]; unfold carried_fields;
        rewrite !elem_of_cons; tauto).
  assert (is_Some (initial_token_data m x (Some token) !! "roles")) as Hroles'
    by (apply Hinit; [|done]; unfold carried_fields;
        rewrite !elem_of_cons; tauto).
  assert (is_Some (initial_token_data m x (Some token) !! "catalog"))
    as Hcatalog'
    by (apply Hinit; [|done]; unfold carried_fields;
        rewrite !elem_of_cons; tauto).
  unfold get_token_data.
  rewrite (@populate_all_present CONF identity_api catalog_api) by done.
  by rewrite (@populate_all_present CONF identity_api' catalog_api') by done.
Qed.
End Backends.

Section BackendsSample.
#[local] Existing Instances Sample.conf Sample.timeutils.

Lemma catalog_not_implemented_is_empty_witness :
  @get_token_data _ Sample.identity Sample.no_catalog _ (VStr "alice")
    (VList [VStr "password"]) VNone VNone (VStr "p1") VNone None None
  = @get_token_data _ Sample.identity Sample.empty_catalog _ (VStr "alice")
      (VList [VStr "password"]) VNone VNone (VStr "p1") VNone None None.
Proof.
  apply (@catalog_not_implemented_is_empty _ Sample.identity _
           Sample.no_catalog Sample.empty_catalog); reflexivity.
Defined.

(** With the directory out of service and the catalog without V3 support,
    an assembly on top of the earlier token of alice is the one it is with
    both in service. *)
Lemma carried_token_needs_no_backend_witness :
  @get_token_data _ Sample.identity Sample.catalog _ (VStr "alice")
    (VList [VStr "token"]) VNone VNone (VStr "p1") VNone None
    (Some Sample.earlier_token)
  = @get_token_data _ Sample.identity_down Sample.no_catalog _ (VStr "alice")
      (VList [VStr "token"]) VNone VNone (VStr "p1") VNone None
      (Some Sample.earlier_token).
Proof.
  apply (@carried_token_needs_no_backend _ Sample.identity _ Sample.catalog
           Sample.identity_down Sample.no_catalog).
  - right. exists (VDict {[ "id" := VStr "p1" ]}). by_evaluation.
  - exists (VDict {[ "id" := VStr "alice" ]}). by_evaluation.
  - exists (VList [VDict {[ "id" := VStr "admin" ]}]). by_evaluation.
  - exists (VDict ∅). by_evaluation.
Defined.
End BackendsSample.

(** ** Failures around the store *)

Section Recheck.
Context `{CONF : Conf} `{identity_api : IdentityApi}
        `{catalog_api : CatalogApi} `{timeutils : TimeUtils}
        `{trust_api : TrustApi} `{token_provider : TokenProvider}
        {S : Type} `{token_api : TokenApi S}.

(** X11.  A failure while the record is derived from the payload, before
    anything is handed to the store, is treated as a failed write: when the
    store holds a record under the id just drawn the issuance returns the id
    and the payload although it wrote nothing, and when the lookup raises
    [TokenNotFound] the failure is raised.  And when the lookup that follows
    a failed write raises something else than [TokenNotFound], that is what
    the issuance raises, not the failure of the write. *)
Theorem issue_recheck_edges kwargs token_id (s : S) trust token_data :
  issue_trust kwargs = Ok trust →
  get_token_data (kw_user_id kwargs) (kw_method_names kwargs)
    (auth_extras (kw_auth_context kwargs)) (kw_domain_id kwargs)
    (kw_project_id kwargs) (kw_expires_at kwargs) trust None
    = Ok token_data →
  (∀ e record s2,
     token_record kwargs trust token_id token_data = Raise e →
     get_token token_id s = (Ok record, s2) →
     issue_token V3 kwargs token_id s = (Ok (token_id, token_data), s2))
  ∧ (∀ e m s2,
       token_record kwargs trust token_id token_data = Raise e →
       get_token token_id s = (Raise (TokenNotFound m), s2) →
       issue_token V3 kwargs token_id s = (Raise e, s2))
  ∧ (∀ data e s1 e' s2,
       token_record kwargs trust token_id token_data = Ok data →
       create_token token_id data s = (Raise e, s1) →
       get_token token_id s1 = (Raise e', s2) →
       is_TokenNotFound e' = false →
       issue_token V3 kwargs token_id s = (Raise e', s2)).
Proof.
  intros Htrust Hdata.
  unfold issue_token. rewrite bool_decide_eq_true_2 by done.
  unfold _issue_v3_token, store_token_data, try_except, mbind, store_bind,
    lift.
  rewrite Htrust, Hdata. split; [|split].
  - intros e record s2 Hrecord Hget. by rewrite Hrecord, Hget.
  - intros e m s2 Hrecord Hget. by rewrite Hrecord, Hget.
  - intros data e s1 e' s2 Hrecord Hcreate Hget Hother.
    rewrite Hrecord, Hcreate. simpl. rewrite Hget. by rewrite Hother.
Qed.

(** X12.  With any version but V3, an issuance, a validation and a check
    raise [UnsupportedTokenVersionException] and leave the store alone; the
    failure is not turned into Unauthorized. *)
Theorem unsupported_version version kwargs token_id belongs_to (s : S) :
  version ≠ V3 →
  issue_token version kwargs token_id s
  = (Raise UnsupportedTokenVersionException, s)
  ∧ validate_token token_id belongs_to version s
    = (Raise UnsupportedTokenVersionException, s)
  ∧ check_token token_id belongs_to version s
    = (Raise UnsupportedTokenVersionException, s).
Proof.
  intros Hversion.
  unfold issue_token, validate_token, check_token.
  rewrite !unauthorized_wrapper.
  by rewrite !(bool_decide_eq_false_2 (version = V3)) by done.
Qed.

(** X13.  A check and a validation of the same id agree: a validation that
    yields a payload means a check that passes, and a check that fails
    means a validation that fails in the same way; both leave the store in
    the same state. *)
Theorem check_validate_agree token_id belongs_to belongs_to' version
    (s s' : S) :
  (∀ payload,
     validate_token token_id belongs_to version s = (Ok payload, s') →
     check_token token_id belongs_to' version s = (Ok (), s'))
  ∧ (∀ e,
       check_token token_id belongs_to version s = (Raise e, s') →
       validate_token token_id belongs_to' version s = (Raise e, s')).
Proof.
  unfold validate_token, check_token. rewrite !unauthorized_wrapper.
  destruct (bool_decide (version = V3)).
  - unfold _validate_v3_token, mbind, store_bind, lift.
    destruct (_verify_token token_id None s) as [[token_ref|e0] s1].
    + split.
      * intros payload H. simpl in *.
        match type of H with
        | context [match ?c with Ok _ => _ | Raise _ => _ end] =>
            destruct c as [v|e1]
        end.
        -- by injection H as _ <-.
        -- destruct e1; discriminate.
      * intros e H. discriminate.
    + split.
      * intros payload H. destruct e0; discriminate.
      * intros e H. destruct e0; by injection H as <- <-.
  - split.
    + intros payload H. discriminate.
    + intros e H. simpl in *. by injection H as <- <-.
Qed.
End Recheck.

Section RecheckSample.
#[local] Existing Instances Sample.conf Sample.identity Sample.catalog
  Sample.timeutils Sample.trusts Sample.provider Sample.store.

(** The expiry alice asks for cannot be read, so no record can be derived;
    the id drawn is one the store holds a record for, and the issuance
    returns her a payload. *)
Lemma issue_recheck_edges_witness :
  ∃ token_data,
    issue_token "v3.0" Sample.request_unreadable_expiry "4b1d" Sample.taken
    = (Ok ("4b1d", token_data), Sample.taken)
    ∧ token_record Sample.request_unreadable_expiry None "4b1d" token_data
      = Raise ValueError.
Proof.
  pose (token_data :=
          Sample.returned
            (get_token_data (VStr "alice") (VList [VStr "password"]) VNone
               VNone (VStr "p1") (VStr "tomorrow") None None)).
  destruct (@issue_recheck_edges _ _ _ _ _ _ _ Sample.store
              Sample.request_unreadable_expiry "4b1d" Sample.taken None
              token_data)
    as (Hfound & _ & _).
  - reflexivity.
  - by_evaluation.
  - exists token_data. split; [|by_evaluation].
    apply (Hfound ValueError ({[ "id" := VStr "4b1d" ]} : dict) Sample.taken);
      by_evaluation.
Defined.

Lemma unsupported_version_witness :
  validate_token "1e9a" None "v2.0" Sample.legacy_store
  = (Raise UnsupportedTokenVersionException, Sample.legacy_store).
Proof.
  destruct (@unsupported_version _ _ _ _ _ _ _ Sample.store "v2.0"
              (Sample.request "alice" (VStr "p1") None) "1e9a" None
              Sample.legacy_store)
    as (_ & Hvalidate & _); [discriminate | exact Hvalidate].
Defined.

Lemma check_validate_agree_witness :
  check_token "1e9a" None "v3.0" Sample.legacy_store
  = (Ok (), Sample.legacy_store).
Proof.
  destruct (@check_validate_agree _ _ _ _ _ _ Sample.store "1e9a" None None
              "v3.0" Sample.legacy_store Sample.legacy_store)
    as [Hcheck _].
  apply (Hcheck (VDict (Sample.returned
                          (rebuild_token_data Sample.legacy_record)))).
  by_evaluation.
Defined.
End RecheckSample.

(** ** The record an issuance writes *)

Section Record.
Context `{CONF : Conf} `{identity_api : IdentityApi}
        `{catalog_api : CatalogApi} `{timeutils : TimeUtils}
        `{trust_api : TrustApi} `{token_provider : TokenProvider}
        {S : Type} `{token_api : TokenApi S}.

(** The fields of the record derived from a payload. *)
Lemma token_record_fields kwargs trust token_id td data :
  token_record kwargs trust token_id {[ "token" := VDict td ]} = Ok data →
  data ≠ ∅
  ∧ data !! "key" = Some (VStr token_id)
  ∧ data !! "id" = Some (VStr token_id)
  ∧ data !! "user" = td !! "user"
  ∧ data !! "tenant" = Some (dict_get td "project")
  ∧ data !! "token_data" = Some (VDict {[ "token" := VDict td ]})
  ∧ data !! "trust_id"
    = Some (match trust with
            | Some trust => VStr (trust_id trust)
            | None => VNone
            end)
  ∧ ∃ expires_at,
      td !! "expires_at" = Some expires_at
      ∧ match expires_at with
        | VStr expires_at =>
            ∃ t, parse_isotime expires_at = Ok t
                 ∧ data !! "expires" = Some (VTime (normalize_time t))
        | _ => data !! "expires" = Some expires_at
        end.
Proof.
  unfold token_record, dict_getitem, py_getitem.
  rewrite lookup_singleton_eq. simpl. intros H.
  exc_inv H as expiry0 Hexpiry0. exc_inv H as expiry Hexpiry.
  exc_inv H as metadata0 Hmetadata0. exc_inv H as metadata Hmetadata.
  exc_inv H as user Huser. exc_simpl.
  split; [apply insert_non_empty|].
  split; [by simplify_map_eq|]. split; [by simplify_map_eq|].
  split.
  { destruct (td !! "user"); [|discriminate]. exc_simpl.
    by simplify_map_eq. }
  split; [by simplify_map_eq|]. split; [by simplify_map_eq|].
  split; [by simplify_map_eq|].
  exists expiry0. split.
  { by destruct (td !! "expires_at"); exc_simpl. }
  destruct expiry0; exc_simpl; try (by simplify_map_eq).
  exc_inv Hexpiry as t Ht. exc_simpl. exists t. split; [done|].
  by simplify_map_eq.
Qed.

(** The store returns under a key the record that was created under it. *)
Hypothesis get_after_create : ∀ k data (s s' : S),
  create_token k data s = (Ok (), s') → get_token k s' = (Ok data, s').

(** X14.  The record an issuance writes for a payload with a project
    belongs to that project and to no other: verifying the id against a
    project returns the record when the id of the project of the payload is
    the one asked for and fails the assertion otherwise. *)
Theorem issued_token_belongs_to kwargs trust token_id td data (s s' : S)
    project project_id belongs_to :
  token_record kwargs trust token_id {[ "token" := VDict td ]} = Ok data →
  create_token token_id data s = (Ok (), s') →
  td !! "project" = Some project →
  py_getitem project "id" = Ok project_id →
  truthy (VStr belongs_to) = true →
  _verify_token token_id (Some belongs_to) s'
  = if py_eq_str project_id belongs_to then (Ok data, s')
    else (Raise AssertionError, s').
Proof using get_after_create.
  intros Hrecord Hcreate Hproject Hid Hgiven.
  apply token_record_fields in Hrecord
    as (Hne & _ & _ & _ & Htenant & _).
  unfold _verify_token, mbind, store_bind, lift.
  rewrite (get_after_create _ _ _ _ Hcreate). simpl.
  rewrite (bool_decide_eq_false_2 _ Hne). simpl.
  simpl in Hgiven. rewrite Hgiven.
  unfold dict_getitem, py_getitem. rewrite Htenant. simpl.
  unfold dict_get. rewrite Hproject.
  fold (py_getitem project "id"). rewrite Hid. simpl.
  by destruct (py_eq_str project_id belongs_to).
Qed.

(** X15.  The record an issuance writes for a payload without a project
    has [None] for tenant, and verifying its id against any project raises
    [TypeError], not the failed assertion. *)
Theorem unscoped_token_belongs_to kwargs trust token_id td data (s s' : S)
    belongs_to :
  token_record kwargs trust token_id {[ "token" := VDict td ]} = Ok data →
  create_token token_id data s = (Ok (), s') →
  td !! "project" = None →
  truthy (VStr belongs_to) = true →
  data !! "tenant" = Some VNone
  ∧ _verify_token token_id (Some belongs_to) s' = (Raise TypeError, s').
Proof using get_after_create.
  intros Hrecord Hcreate Hproject Hgiven.
  apply token_record_fields in Hrecord
    as (Hne & _ & _ & _ & Htenant & _).
  unfold dict_get in Htenant. rewrite Hproject in Htenant.
  split; [done|].
  unfold _verify_token, mbind, store_bind, lift.
  rewrite (get_after_create _ _ _ _ Hcreate). simpl.
  rewrite (bool_decide_eq_false_2 _ Hne). simpl.
  simpl in Hgiven. rewrite Hgiven.
  unfold dict_getitem, py_getitem. by rewrite Htenant.
Qed.
End Record.

Section Metadata.
Context `{timeutils : TimeUtils}.

(** X16.  The record derived from a payload with a project has for
    metadata the ids of the roles of the payload, in their order, and under
    a trust the ids of the trust and of its trustee next to them; the
    metadata the caller passed is not in it. *)
Theorem record_metadata_roles kwargs trust token_id td data filtered :
  token_record kwargs trust token_id {[ "token" := VDict td ]} = Ok data →
  is_Some (td !! "project") →
  td !! "roles" = Some (VList filtered) →
  ∃ ids,
    Forall2 (λ role id, py_getitem role "id" = Ok id) filtered ids
    ∧ data !! "metadata"
      = Some (VDict
                match trust with
                | None => {[ "roles" := VList ids ]}
                | Some t =>
                    <["trustee_user_id" := VStr (trustee_user_id t)]>
                      (<["trust_id" := VStr (trust_id t)]>
                         {[ "roles" := VList ids ]})
                end).
Proof.
  unfold token_record, dict_getitem, py_getitem.
  rewrite lookup_singleton_eq. simpl. intros H Hproject Hroles.
  exc_inv H as expiry0 Hexpiry0. exc_inv H as expiry Hexpiry.
  rewrite (proj2 (dict_has_true _ _) Hproject), Hroles in H. simpl in H.
  exc_inv H as metadata0 Hmetadata0. exc_inv Hmetadata0 as ids Hids.
  exc_simpl. exists ids. split.
  { apply exc_map_Forall2 in Hids.
    eapply Forall2_impl; [exact Hids|]. by intros [] id. }
  exc_inv H as metadata Hmetadata. exc_inv H as user Huser. exc_simpl.
  rewrite lookup_insert_ne, lookup_insert_ne, lookup_insert_ne,
    lookup_insert_ne, lookup_insert_ne by done.
  rewrite lookup_insert_eq. f_equal.
  destruct trust as [t|]; [|by exc_simpl].
  unfold py_setdefault in Hmetadata.
  rewrite lookup_singleton_ne in Hmetadata by done. simpl in Hmetadata.
  rewrite lookup_insert_ne, lookup_singleton_ne in Hmetadata by done.
  by exc_simpl.
Qed.

(** X17.  The record derived under a trust from a payload without a
    project keeps the trust id and the trustee id the caller passed in the
    metadata, and has those of the trust where the caller passed none. *)
Theorem record_metadata_trust kwargs t token_id td data (metadata_ref : dict) :
  token_record kwargs (Some t) token_id {[ "token" := VDict td ]} = Ok data →
  td !! "project" = None →
  kw_metadata_ref kwargs = Some (VDict metadata_ref) →
  ∃ metadata : dict,
    data !! "metadata" = Some (VDict metadata)
    ∧ metadata !! "trust_id"
      = Some (default (VStr (trust_id t)) (metadata_ref !! "trust_id"))
    ∧ metadata !! "trustee_user_id"
      = Some (default (VStr (trustee_user_id t))
                      (metadata_ref !! "trustee_user_id"))
    ∧ ∀ k, k ≠ "trust_id" → k ≠ "trustee_user_id" →
           metadata !! k = metadata_ref !! k.
Proof.
  unfold token_record, dict_getitem, py_getitem.
  rewrite lookup_singleton_eq. simpl. intros H Hproject Hgiven.
  exc_inv H as expiry0 Hexpiry0. exc_inv H as expiry Hexpiry.
  rewrite (proj2 (dict_has_false _ _) Hproject), Hgiven in H. simpl in H.
  exc_inv H as metadata Hmetadata. exc_inv H as user Huser. exc_simpl.
  exc_inv Hmetadata as metadata1 Hfirst.
  unfold py_setdefault in Hfirst, Hmetadata.
  assert (∃ m1 : dict,
            metadata1 = VDict m1
            ∧ m1 !! "trust_id"
              = Some (default (VStr (trust_id t))
                              (metadata_ref !! "trust_id"))
            ∧ ∀ k, k ≠ "trust_id" → m1 !! k = metadata_ref !! k)
    as (m1 & -> & Htid & Hrest1).
  { destruct (metadata_ref !! "trust_id") eqn:Hk; exc_simpl.
    - exists metadata_ref. by rewrite Hk.
    - eexists. split; [done|]. rewrite lookup_insert_eq.
      split; [done|]. intros k Hne. by rewrite lookup_insert_ne. }
  assert (∃ m2 : dict,
            metadata = VDict m2
            ∧ m2 !! "trustee_user_id"
              = Some (default (VStr (trustee_user_id t))
                              (m1 !! "trustee_user_id"))
            ∧ ∀ k, k ≠ "trustee_user_id" → m2 !! k = m1 !! k)
    as (m2 & -> & Htee & Hrest2).
  { destruct (m1 !! "trustee_user_id") eqn:Hk; exc_simpl.
    - exists m1. by rewrite Hk.
    - eexists. split; [done|]. rewrite lookup_insert_eq.
      split; [done|]. intros k Hne. by rewrite lookup_insert_ne. }
  exists m2. split; [by simplify_map_eq|].
  split; [by rewrite Hrest2|].
  split; [by rewrite Htee, Hrest1|].
  intros k Hk1 Hk2. by rewrite Hrest2, Hrest1.
Qed.
End Metadata.

(** ** Trusts and expiries at the edges *)

Section Edges.
Context `{CONF : Conf} `{identity_api : IdentityApi}
        `{catalog_api : CatalogApi} `{timeutils : TimeUtils}.

(** X18.  With trusts disabled in the configuration the assembler does not
    look at the trust it is given: the outcome is the one without a
    trust. *)
Theorem disabled_trusts_ignored u m x d p e trust token :
  CONF_trust_enabled = false →
  get_token_data u m x d p e trust token
  = get_token_data u m x d p e None token.
Proof.
  intros Hdisabled.
  assert (∀ tr, active_trust tr = None) as Hnone
    by (intros tr; unfold active_trust; by rewrite Hdisabled).
  unfold get_token_data, populate. rewrite !Hnone. simpl.
  destruct (_populate_scope _ d p) as [td1|err]; [simpl|done].
  assert (_populate_user td1 u d p trust = _populate_user td1 u d p None)
    as -> by (unfold _populate_user; by rewrite !Hnone).
  destruct (_populate_user td1 u d p None) as [td2|err]; [simpl|done].
  assert (_populate_roles td2 u d p trust = _populate_roles td2 u d p None)
    as ->
    by (unfold _populate_roles, token_scope, filtered_roles_of;
        by rewrite !Hnone).
  destruct (_populate_roles td2 u d p None) as [td3|err]; [simpl|done].
  assert (_populate_service_catalog td3 u d p trust
          = _populate_service_catalog td3 u d p None) as ->
    by (unfold _populate_service_catalog; by rewrite !Hnone).
  done.
Qed.

(** X19.  An expiry given as a string goes into the payload as it is, and
    is read only when the record is derived: when the clock cannot read it,
    the payload is assembled all the same and the record cannot be derived,
    with the error of the clock. *)
Theorem unreadable_expiry u m x d p expires trust token payload err :
  truthy (VStr expires) = true →
  get_token_data u m x d p (VStr expires) trust token = Ok payload →
  parse_isotime expires = Raise err →
  (∃ td, payload = {[ "token" := VDict td ]}
         ∧ td !! "expires_at" = Some (VStr expires))
  ∧ ∀ kwargs trust' token_id,
      token_record kwargs trust' token_id payload = Raise err.
Proof.
  intros Hgiven H Hparse.
  apply get_token_data_inv in H as (_ & td & -> & Hpopulate).
  apply populate_inv in Hpopulate
    as (td1 & td2 & td3 & td4 & Hscope & Huser & Hroles & Hcat & Hdates).
  assert (td !! "expires_at" = Some (VStr expires)) as Hexpires.
  { unfold _populate_token_dates in Hdates. rewrite Hgiven in Hdates.
    simpl in Hdates. exc_simpl.
    by rewrite lookup_insert_ne, lookup_insert_eq. }
  split; [eauto|].
  intros kwargs trust' token_id.
  unfold token_record, dict_getitem, py_getitem.
  rewrite lookup_singleton_eq. simpl. rewrite Hexpires. simpl.
  by rewrite Hparse.
Qed.

(** X20.  Under an active trust that names no project, a request that asks
    for a project gets a payload with that project and without roles, from
    which no record can be derived: once the expiry is read, the derivation
    fails on the missing roles. *)
Theorem trust_without_project u m x d p e trust t payload :
  active_trust trust = Some t →
  truthy (trust_project_id t) = false →
  truthy p = true →
  get_token_data u m x d p e trust None = Ok payload →
  ∃ td,
    payload = {[ "token" := VDict td ]}
    ∧ is_Some (td !! "project")
    ∧ td !! "roles" = None
    ∧ ∀ kwargs trust' token_id,
        ∃ err,
          token_record kwargs trust' token_id payload = Raise err
          ∧ ((∃ expires_at when,
                td !! "expires_at" = Some (VStr expires_at)
                ∧ parse_isotime expires_at = Ok when) →
             err = KeyError "roles").
Proof.
  intros Ht Hnoproject Hp H.
  apply get_token_data_inv in H as (_ & td & -> & Hpopulate).
  apply populate_inv in Hpopulate
    as (td1 & td2 & td3 & td4 & Hscope & Huser & Hroles & Hcat & Hdates).
  assert (td2 !! "roles" = None) as Habsent
    by (by apply (before_roles_step m x None u d p trust td1 td2)).
  assert (token_scope u d p trust
          = (VStr (trustor_user_id t), trust_project_id t, VNone)) as Hts
    by (unfold token_scope; by rewrite Ht).
  pose proof (_populate_roles_absent _ _ _ _ _ _ _ _ _ Habsent Hts Hroles)
    as Hstep.
  rewrite Hnoproject in Hstep. simpl in Hstep. subst td3.
  assert (is_Some (td1 !! "project")) as Hproject.
  { unfold _populate_scope in Hscope. simpl in Hscope.
    exc_inv Hscope as td0 Hdomain. rewrite Hp in Hscope.
    exc_inv Hscope as project Hfiltered. exc_simpl.
    rewrite lookup_insert_eq. eauto. }
  destruct (_populate_token_dates_sets _ _ _ _ Hdates)
    as (_ & expires_at & Hexpires).
  assert (td !! "roles" = None) as Hnoroles.
  { rewrite (_populate_token_dates_frame _ _ _ _ _ Hdates) by done.
    by rewrite (_populate_service_catalog_frame _ _ _ _ _ _ _ Hcat). }
  assert (is_Some (td !! "project")) as Hsome.
  { rewrite (_populate_token_dates_frame _ _ _ _ _ Hdates) by done.
    rewrite (_populate_service_catalog_frame _ _ _ _ _ _ _ Hcat) by done.
    by rewrite (_populate_user_frame _ _ _ _ _ _ _ Huser). }
  exists td. split; [done|]. split; [done|]. split; [done|].
  intros kwargs trust' token_id.
  unfold token_record, dict_getitem, py_getitem.
  rewrite lookup_singleton_eq. simpl. rewrite Hexpires. simpl.
  destruct (parse_isotime expires_at) as [when|err] eqn:Hparse; simpl.
  - rewrite (proj2 (dict_has_true _ _) Hsome), Hnoroles. simpl.
    exists (KeyError "roles"). by split.
  - exists err. split; [done|].
    intros (expires_at' & when & Hexpires' & Hparse'). congruence.
Qed.
End Edges.

Section RecordSample.
#[local] Existing Instances Sample.conf Sample.identity Sample.catalog
  Sample.timeutils Sample.trusts Sample.provider Sample.store.

(** The record of alice's token on project p1 verifies for p1 and fails the
    assertion for p2. *)
Lemma issued_token_belongs_to_witness :
  let kwargs := Sample.request "alice" (VStr "p1") None in
  let td := Sample.returned
              (populate
                 (initial_token_data (VList [VStr "password"]) VNone None)
                 (VStr "alice") VNone (VStr "p1") VNone None) in
  let data := Sample.returned
                (token_record kwargs None "4b1d" {[ "token" := VDict td ]}) in
  _verify_token "4b1d" (Some "p1") {[ "4b1d" := data ]}
  = (Ok data, {[ "4b1d" := data ]})
  ∧ _verify_token "4b1d" (Some "p2") {[ "4b1d" := data ]}
    = (Raise AssertionError, {[ "4b1d" := data ]}).
Proof.
  intros kwargs td data.
  pose (project := Sample.returned (_get_filtered_project (VStr "p1"))).
  split.
  - apply (@issued_token_belongs_to _ _ Sample.store
             sample_store_get_after_create kwargs None "4b1d" td data
             (∅ : gmap string dict) {[ "4b1d" := data ]} (VDict project)
             (VStr "p1") "p1"); by_evaluation.
  - apply (@issued_token_belongs_to _ _ Sample.store
             sample_store_get_after_create kwargs None "4b1d" td data
             (∅ : gmap string dict) {[ "4b1d" := data ]} (VDict project)
             (VStr "p1") "p2"); by_evaluation.
Defined.

(** The record of alice's unscoped token cannot be verified for p1. *)
Lemma unscoped_token_belongs_to_witness :
  let kwargs := Sample.request "alice" VNone None in
  let td := Sample.returned
              (populate
                 (initial_token_data (VList [VStr "password"]) VNone None)
                 (VStr "alice") VNone VNone VNone None) in
  let data := Sample.returned
                (token_record kwargs None "4b1d" {[ "token" := VDict td ]}) in
  _verify_token "4b1d" (Some "p1") {[ "4b1d" := data ]}
  = (Raise TypeError, {[ "4b1d" := data ]}).
Proof.
  intros kwargs td data.
  apply (@unscoped_token_belongs_to _ _ Sample.store
           sample_store_get_after_create kwargs None "4b1d" td data
           (∅ : gmap string dict) {[ "4b1d" := data ]} "p1"); by_evaluation.
Defined.

(** The metadata of the record of alice's token on project p1. *)
Lemma record_metadata_roles_witness :
  let kwargs := Sample.request "alice" (VStr "p1") None in
  let td := Sample.returned
              (populate
                 (initial_token_data (VList [VStr "password"]) VNone None)
                 (VStr "alice") VNone (VStr "p1") VNone None) in
  let data := Sample.returned
                (token_record kwargs None "4b1d" {[ "token" := VDict td ]}) in
  data !! "metadata"
  = Some (VDict {[ "roles" := VList [VStr "admin"; VStr "member"] ]}).
Proof.
  intros kwargs td data.
  destruct (record_metadata_roles kwargs None "4b1d" td data
              (plain_filtered_roles [Sample.admin; Sample.member]))
    as (ids & Hids & Hmetadata).
  - by_evaluation.
  - exists (VDict (Sample.returned (_get_filtered_project (VStr "p1")))).
    by_evaluation.
  - by_evaluation.
  - rewrite Hmetadata.
    apply Forall2_cons_inv_l in Hids as (i1 & l1 & Hi1 & Hids & ->).
    apply Forall2_cons_inv_l in Hids as (i2 & l2 & Hi2 & Hids & ->).
    apply Forall2_nil_inv_l in Hids as ->.
    assert (i1 = VStr "admin") as ->.
    { vm_compute in Hi1. by injection Hi1. }
    assert (i2 = VStr "member") as ->.
    { vm_compute in Hi2. by injection Hi2. }
    reflexivity.
Defined.

(** The metadata bob passes names the trust t0: the record keeps it, and
    gets bob as the trustee. *)
Lemma record_metadata_trust_witness :
  let td := Sample.returned
              (populate
                 (initial_token_data (VList [VStr "token"]) VNone None)
                 (VStr "bob") VNone VNone VNone
                 (Some (Sample.trust_with ["admin"]))) in
  let data := Sample.returned
                (token_record Sample.request_with_metadata
                   (Some (Sample.trust_with ["admin"])) "4b1d"
                   {[ "token" := VDict td ]}) in
  ∃ metadata : dict,
    data !! "metadata" = Some (VDict metadata)
    ∧ metadata !! "trust_id" = Some (VStr "t0")
    ∧ metadata !! "trustee_user_id" = Some (VStr "bob").
Proof.
  intros td data.
  destruct (record_metadata_trust Sample.request_with_metadata
              (Sample.trust_with ["admin"]) "4b1d" td data
              {[ "trust_id" := VStr "t0"; "is_admin" := VBool false ]})
    as (metadata & Hmetadata & Htrust & Htrustee & _).
  - by_evaluation.
  - by_evaluation.
  - reflexivity.
  - exists metadata. split; [exact Hmetadata|].
    split; [rewrite Htrust | rewrite Htrustee].
    + assert (({[ "trust_id" := VStr "t0"; "is_admin" := VBool false ]}
                : dict) !! "trust_id" = Some (VStr "t0")) as ->
        by by_evaluation.
      reflexivity.
    + assert (({[ "trust_id" := VStr "t0"; "is_admin" := VBool false ]}
                : dict) !! "trustee_user_id" = None) as ->
        by by_evaluation.
      reflexivity.
Defined.
End RecordSample.

Section EdgesSample.
#[local] Existing Instances Sample.identity Sample.catalog Sample.timeutils.

(** With trusts disabled alice gets her own payload under the trust she
    gave to bob, of which she is not the trustee. *)
Lemma disabled_trusts_ignored_witness :
  @get_token_data Sample.conf_without_trusts _ _ _ (VStr "alice")
    (VList [VStr "password"]) VNone VNone (VStr "p1") VNone
    (Some (Sample.trust_with ["admin"])) None
  = @get_token_data Sample.conf_without_trusts _ _ _ (VStr "alice")
      (VList [VStr "password"]) VNone VNone (VStr "p1") VNone None None.
Proof.
  apply (@disabled_trusts_ignored Sample.conf_without_trusts). reflexivity.
Defined.

(** The expiry "tomorrow" is in the payload of alice and no record can be
    derived from that payload. *)
Lemma unreadable_expiry_witness :
  let payload :=
    Sample.returned
      (@get_token_data Sample.conf _ _ _ (VStr "alice")
         (VList [VStr "password"]) VNone VNone (VStr "p1") (VStr "tomorrow")
         None None) in
  token_record Sample.request_unreadable_expiry None "4b1d" payload
  = Raise ValueError.
Proof.
  intros payload.
  destruct (@unreadable_expiry Sample.conf _ _ _ (VStr "alice")
              (VList [VStr "password"]) VNone VNone (VStr "p1") "tomorrow"
              None None payload ValueError)
    as [_ Hrecord].
  - reflexivity.
  - by_evaluation.
  - reflexivity.
  - apply Hrecord.
Defined.

(** Under the trust without a project, the payload bob gets for project p1
    has the project and no roles. *)
Lemma trust_without_project_witness :
  ∃ td,
    @get_token_data Sample.conf _ _ _ (VStr "bob") (VList [VStr "token"])
      VNone VNone (VStr "p1") VNone (Some Sample.trust_unscoped) None
    = Ok {[ "token" := VDict td ]}
    ∧ is_Some (td !! "project")
    ∧ td !! "roles" = None.
Proof.
  pose (payload :=
          Sample.returned
            (@get_token_data Sample.conf _ _ _ (VStr "bob")
               (VList [VStr "token"]) VNone VNone (VStr "p1") VNone
               (Some Sample.trust_unscoped) None)).
  destruct (@trust_without_project Sample.conf _ _ _ (VStr "bob")
              (VList [VStr "token"]) VNone VNone (VStr "p1") VNone
              (Some Sample.trust_unscoped) Sample.trust_unscoped payload)
    as (td & Hshape & Hproject & Hroles & _).
  - reflexivity.
  - reflexivity.
  - reflexivity.
  - by_evaluation.
  - exists td. split; [rewrite <- Hshape; by_evaluation|]. by split.
Defined.
End EdgesSample.

(** ** Records without a stored payload *)

Section PlainAssembly.
Context `{CONF : Conf} `{identity_api : IdentityApi}
        `{catalog_api : CatalogApi} `{timeutils : TimeUtils}.



End PlainAssembly.

Section LegacyValidation.
Context `{CONF : Conf} `{identity_api : IdentityApi}
        `{catalog_api : CatalogApi} `{timeutils : TimeUtils}
        `{trust_api : TrustApi} `{token_provider : TokenProvider}
        {S : Type} `{token_api : TokenApi S}.

End LegacyValidation.

Section LegacyValidationSample.
#[local] Existing Instances Sample.conf Sample.identity Sample.catalog
  Sample.timeutils Sample.trusts Sample.provider Sample.store.

End LegacyValidationSample.
